(** * Cursor pagination and resource-type filtering of network requests

    A shallow embedding of

    - [src/utils/pagination.ts]    (module [Pagination]: the generic [paginate]),
    - [src/utils/networkUtils.ts]  (module [NetworkUtils]: allow-list, filter,
                                    listing with [total] and [appliedRequestType]),
    - the earlier, filter-less revision of [networkUtils.ts]
                                   (module [NetworkUtilsV0]),
    - the allow-list of the tool schema in the two revisions of
      [src/tools/network.ts]       (modules [NetworkTool] and [NetworkTool2]),

    together with the small part of the JavaScript runtime these functions
    call (module [JS]): [Number.parseInt], [String], [Array.prototype.slice],
    [Math.max] and [+]/[-] on numbers. *)

From stdpp Require Import list gmap strings.
From Stdlib Require Import ZArith Lia.

Local Open Scope Z_scope.

(** ** The JavaScript runtime *)

Module JS.

(** A string is its sequence of UTF-16 code units. *)
Definition jsstring : Type := list N.

(** An ASCII literal as a [jsstring]. *)
Definition lit (s : string) : jsstring :=
  Ascii.N_of_ascii <$> String.list_ascii_of_string s.

(** A number.  Finite integral values are [Int]; the finite values with a
    fractional part are [Frac], over a type [fraction] that the development
    leaves open (see [Fractions]).  [-0] is identified with [Int 0]: the code
    below only compares it and adds to it, and [-0 === 0], [-0 < 0] is
    false, [-0 + n] is [n].  Integers are exact here; on the double-precision
    numbers of the runtime this is so below [2^53], and every array length is
    below [2^32]. *)
Inductive number (fraction : Type) : Type :=
  | Int (z : Z)
  | Frac (q : fraction)
  | NaN
  | PosInf
  | NegInf.
Arguments Int {fraction} z.
Arguments Frac {fraction} q.
Arguments NaN {fraction}.
Arguments PosInf {fraction}.
Arguments NegInf {fraction}.

(** What the paginator needs of the fractional numbers: [n + q] and [n - q]
    for an integer [n] (rounded as the runtime rounds, so the result may be
    integral), the floor, and the decimal rendering. *)
Class Fractions (fraction : Type) : Type := {
  frac_plus : Z → fraction → number fraction;
  frac_minus : Z → fraction → number fraction;
  frac_floor : fraction → Z;
  frac_String : fraction → jsstring;
}.

(** An optional value is [undefined] (for a page token: or [null]). *)
Definition isUndefined {A : Type} (o : option A) : bool :=
  match o with None => true | Some _ => false end.

(** The result of the abstract operation [ToIntegerOrInfinity]. *)
Inductive integerOrInfinity : Type :=
  | Finite (z : Z)
  | PlusInfinity
  | MinusInfinity.

(** *** Characters *)

(** [StrWhiteSpaceChar]: WhiteSpace (TAB, VT, FF, ZWNBSP and the Unicode
    space separators) and LineTerminator (LF, CR, LS, PS). *)
Definition isWhiteSpace (c : N) : bool :=
  bool_decide (c ∈ [0x9; 0xA; 0xB; 0xC; 0xD; 0x20; 0xA0; 0x1680;
                    0x2000; 0x2001; 0x2002; 0x2003; 0x2004; 0x2005; 0x2006;
                    0x2007; 0x2008; 0x2009; 0x200A; 0x2028; 0x2029; 0x202F;
                    0x205F; 0x3000; 0xFEFF]%N).

(** A radix-10 digit, ["0"] (48) to ["9"] (57). *)
Definition isDigit (c : N) : bool := ((48 <=? c) && (c <=? 57))%N.

Definition digitValue (c : N) : Z := Z.of_N c - 48.

(** *** [String(n)] *)

(** The decimal digits of [n >= 0], most significant first, in front of
    [acc].  [fuel] bounds the number of digits. *)
Fixpoint digitsOf (fuel : nat) (n : Z) (acc : jsstring) : jsstring :=
  let acc' := Z.to_N (48 + n mod 10) :: acc in
  match fuel with
  | O => acc'
  | S fuel' => if n / 10 =? 0 then acc' else digitsOf fuel' (n / 10) acc'
  end.

(** [String(z)] for an integral [z]: decimal digits, a leading ["-"] when
    negative (decimal notation is what the runtime prints below [10^21]). *)
Definition String (z : Z) : jsstring :=
  if z <? 0 then 45%N :: digitsOf (Z.to_nat (Z.log2 (- z))) (- z) []
  else digitsOf (Z.to_nat (Z.log2 z)) z [].

(** *** [Number.parseInt(string, 10)] *)

(** [TrimString(string, start)]. *)
Fixpoint trimStart (s : jsstring) : jsstring :=
  match s with
  | c :: rest => if isWhiteSpace c then trimStart rest else s
  | [] => []
  end.

(** The longest prefix of radix-10 digits. *)
Fixpoint digitPrefix (s : jsstring) : jsstring :=
  match s with
  | c :: rest => if isDigit c then c :: digitPrefix rest else []
  | [] => []
  end.

(** The mathematical integer a digit string denotes in radix 10. *)
Definition digitsValue (ds : jsstring) : Z :=
  foldl (λ acc c, acc * 10 + digitValue c) 0 ds.

(** [Number.parseInt(string, 10)]; [None] is [NaN], and ["-0"] reads as 0
    (see [number]).  With radix 10 no ["0x"] prefix is stripped.  The result
    is the exact integer: the runtime rounds a long digit string to a double,
    which is monotone and leaves every value below [2^53] alone, so comparing
    with an array length gives the same answer. *)
Definition parseInt (string : jsstring) : option Z :=
  let inputString := trimStart string in
  let '(sign, rest) :=
    match inputString with
    | c :: rest =>
        if (c =? 45)%N then (-1, rest)
        else if (c =? 43)%N then (1, rest)
        else (1, inputString)
    | [] => (1, inputString)
    end in
  match digitPrefix rest with
  | [] => None
  | digits => Some (sign * digitsValue digits)
  end.

(** *** Arithmetic of the paginator on numbers *)

Section Numbers.
Context {fraction : Type} `{!Fractions fraction}.

(** [n + x] for an integer [n].  On integers the sum is exact; the runtime
    rounds it once it is beyond [2^53] in magnitude. *)
Definition plus (n : Z) (x : number fraction) : number fraction :=
  match x with
  | Int z => Int (n + z)
  | Frac q => frac_plus n q
  | NaN => NaN
  | PosInf => PosInf
  | NegInf => NegInf
  end.

(** [n - x] for an integer [n].  On integers the difference is exact; the
    runtime rounds it once it is beyond [2^53] in magnitude. *)
Definition minus (n : Z) (x : number fraction) : number fraction :=
  match x with
  | Int z => Int (n - z)
  | Frac q => frac_minus n q
  | NaN => NaN
  | PosInf => NegInf
  | NegInf => PosInf
  end.

(** [Math.max(x, n)] for an integer [n]. *)
Definition Math_max (x : number fraction) (n : Z) : number fraction :=
  match x with
  | Int z => Int (Z.max z n)
  | Frac q => if n <=? frac_floor q then Frac q else Int n
  | NaN => NaN
  | PosInf => PosInf
  | NegInf => Int n
  end.

(** [ToIntegerOrInfinity(x)]: [NaN] is 0, a fraction is truncated towards
    zero. *)
Definition ToIntegerOrInfinity (x : number fraction) : integerOrInfinity :=
  match x with
  | Int z => Finite z
  | Frac q => Finite (if frac_floor q <? 0 then frac_floor q + 1 else frac_floor q)
  | NaN => Finite 0
  | PosInf => PlusInfinity
  | NegInf => MinusInfinity
  end.

(** [String(x)]. *)
Definition StringOfNumber (x : number fraction) : jsstring :=
  match x with
  | Int z => String z
  | Frac q => frac_String q
  | NaN => lit "NaN"
  | PosInf => lit "Infinity"
  | NegInf => lit "-Infinity"
  end.
End Numbers.

(** *** [Array.prototype.slice(start, end)] *)

(** The clamping of a relative index into [[0, len]]: a negative index
    counts from the end. *)
Definition relativeIndex (len : Z) (r : integerOrInfinity) : Z :=
  match r with
  | MinusInfinity => 0
  | Finite z => if z <? 0 then Z.max (len + z) 0 else Z.min z len
  | PlusInfinity => len
  end.

(** [items.slice(start, end)], both arguments already through
    [ToIntegerOrInfinity]: the elements at positions [k .. final - 1]. *)
Definition slice {A : Type} (items : list A) (start end_ : integerOrInfinity) : list A :=
  let len := Z.of_nat (length items) in
  let k := relativeIndex len start in
  let final := relativeIndex len end_ in
  take (Z.to_nat (Z.max (final - k) 0)) (drop (Z.to_nat k) items).

End JS.

(** ** [src/utils/pagination.ts]: the generic paginator *)

Module Pagination.

Record PaginationOptions (fraction : Type) : Type := {
  pageSize : option (JS.number fraction);
  pageToken : option JS.jsstring;   (* [None]: [undefined] or [null] *)
}.
Arguments pageSize {fraction} _.
Arguments pageToken {fraction} _.

Record PaginationResult (TItem : Type) : Type := {
  items : list TItem;
  nextPageToken : option JS.jsstring;
  previousPageToken : option JS.jsstring;
  startIndex : Z;
  endIndex : Z;
  invalidToken : bool;
}.
Arguments items {TItem} _.
Arguments nextPageToken {TItem} _.
Arguments previousPageToken {TItem} _.
Arguments startIndex {TItem} _.
Arguments endIndex {TItem} _.
Arguments invalidToken {TItem} _.

Definition DEFAULT_PAGE_SIZE : Z := 20.

Definition noPaginationOptions {fraction} (options : PaginationOptions fraction) : bool :=
  JS.isUndefined (pageSize options) && JS.isUndefined (pageToken options).

Definition resolveStartIndex (pageToken : option JS.jsstring) (total : Z) : Z * bool :=
  match pageToken with
  | None => (0, false)
  | Some pageToken =>
      match JS.parseInt pageToken with
      | None => (0, true)
      | Some parsed =>
          if (parsed <? 0) || (parsed >=? total) then (0, true)
          else (parsed, false)
      end
  end.

Section Paginate.
Context {fraction : Type} `{!JS.Fractions fraction} {TItem : Type}.

Definition paginate (items : list TItem)
    (options : option (PaginationOptions fraction)) : PaginationResult TItem :=
  let total := Z.of_nat (length items) in
  let everything :=
    {| items := items; nextPageToken := None; previousPageToken := None;
       startIndex := 0; endIndex := total; invalidToken := false |} in
  match options with
  | None => everything
  | Some options =>
      if noPaginationOptions options then everything
      else
        let pageSize := default (JS.Int DEFAULT_PAGE_SIZE) (pageSize options) in
        let '(startIndex, invalidToken) :=
          resolveStartIndex (pageToken options) total in
        let pageItems :=
          JS.slice items (JS.Finite startIndex)
            (JS.ToIntegerOrInfinity (JS.plus startIndex pageSize)) in
        let endIndex := startIndex + Z.of_nat (length pageItems) in
        let nextPageToken :=
          if endIndex <? total then Some (JS.String endIndex) else None in
        let previousPageToken :=
          if startIndex >? 0
          then Some (JS.StringOfNumber (JS.Math_max (JS.minus startIndex pageSize) 0))
          else None in
        {| items := pageItems; nextPageToken := nextPageToken;
           previousPageToken := previousPageToken; startIndex := startIndex;
           endIndex := endIndex; invalidToken := invalidToken |}
  end.

End Paginate.

End Pagination.

(** ** The earlier revision of [networkUtils.ts]: pagination of requests,
       no filter *)

Module NetworkUtilsV0.

Record NetworkPaginationOptions (fraction : Type) : Type := {
  pageSize : option (JS.number fraction);
  pageToken : option JS.jsstring;   (* [None]: [undefined] or [null] *)
}.
Arguments pageSize {fraction} _.
Arguments pageToken {fraction} _.

Record NetworkPaginationResult (HTTPRequest : Type) : Type := {
  requests : list HTTPRequest;
  nextPageToken : option JS.jsstring;
  previousPageToken : option JS.jsstring;
  startIndex : Z;
  endIndex : Z;
  invalidToken : bool;
}.
Arguments requests {HTTPRequest} _.
Arguments nextPageToken {HTTPRequest} _.
Arguments previousPageToken {HTTPRequest} _.
Arguments startIndex {HTTPRequest} _.
Arguments endIndex {HTTPRequest} _.
Arguments invalidToken {HTTPRequest} _.

Definition DEFAULT_PAGE_SIZE : Z := 20.

Definition noPaginationOptions {fraction}
    (options : NetworkPaginationOptions fraction) : bool :=
  JS.isUndefined (pageSize options) && JS.isUndefined (pageToken options).

(** The result is integral on every branch, hence [Z].  [total || 20] is 20
    exactly when [total] is 0; [Number.isInteger] holds of [Int] only. *)
Definition validatePageSize {fraction}
    (pageSize : option (JS.number fraction)) (total : Z) : Z :=
  match pageSize with
  | None => if total =? 0 then DEFAULT_PAGE_SIZE else total
  | Some (JS.Int pageSize) =>
      if pageSize <=? 0 then DEFAULT_PAGE_SIZE
      else Z.min pageSize (Z.max total 1)
  | Some _ => DEFAULT_PAGE_SIZE
  end.

Definition resolveStartIndex (pageToken : option JS.jsstring) (total : Z) : Z * bool :=
  match pageToken with
  | None => (0, false)
  | Some pageToken =>
      match JS.parseInt pageToken with
      | None => (0, true)
      | Some parsed =>
          if (parsed <? 0) || (parsed >=? total) then (0, true)
          else (parsed, false)
      end
  end.

Definition paginateNetworkRequests {fraction HTTPRequest} (requests : list HTTPRequest)
    (options : option (NetworkPaginationOptions fraction))
    : NetworkPaginationResult HTTPRequest :=
  let total := Z.of_nat (length requests) in
  let everything :=
    {| requests := requests; nextPageToken := None; previousPageToken := None;
       startIndex := 0; endIndex := total; invalidToken := false |} in
  match options with
  | None => everything
  | Some options =>
      if noPaginationOptions options then everything
      else
        let pageSize := validatePageSize (pageSize options) total in
        let '(startIndex, invalidToken) :=
          resolveStartIndex (pageToken options) total in
        let pageRequests :=
          JS.slice requests (JS.Finite startIndex) (JS.Finite (startIndex + pageSize)) in
        let endIndex := startIndex + Z.of_nat (length pageRequests) in
        let nextPageToken :=
          if endIndex <? total then Some (JS.String endIndex) else None in
        let previousPageToken :=
          if startIndex >? 0
          then Some (JS.String (Z.max (startIndex - pageSize) 0))
          else None in
        {| requests := pageRequests; nextPageToken := nextPageToken;
           previousPageToken := previousPageToken; startIndex := startIndex;
           endIndex := endIndex; invalidToken := invalidToken |}
  end.

End NetworkUtilsV0.

(** ** [src/utils/networkUtils.ts]: allow-list, filter and listing *)

Module NetworkUtils.

Definition FILTERABLE_RESOURCE_TYPES : list JS.jsstring :=
  JS.lit <$> ["document"; "stylesheet"; "image"; "media"; "font"; "script";
              "xhr"; "fetch"; "prefetch"; "websocket"; "preflight"; "other"]%string.

(** [FilterableResourceType | FilterableResourceType[]] as the value the code
    receives at run time: one string or an array of strings. *)
Inductive RequestType : Type :=
  | Single (value : JS.jsstring)
  | Array (values : list JS.jsstring).

Record NetworkRequestsListingOptions (fraction : Type) : Type := {
  pageSize : option (JS.number fraction);
  pageToken : option JS.jsstring;   (* [None]: [undefined] or [null] *)
  requestType : option RequestType; (* [None]: [undefined] or [null] *)
}.
Arguments pageSize {fraction} _.
Arguments pageToken {fraction} _.
Arguments requestType {fraction} _.

Record NetworkRequestsListingResult (HTTPRequest : Type) : Type := {
  requests : list HTTPRequest;
  nextPageToken : option JS.jsstring;
  previousPageToken : option JS.jsstring;
  startIndex : Z;
  endIndex : Z;
  invalidToken : bool;
  total : Z;
  appliedRequestType : option RequestType;
}.
Arguments requests {HTTPRequest} _.
Arguments nextPageToken {HTTPRequest} _.
Arguments previousPageToken {HTTPRequest} _.
Arguments startIndex {HTTPRequest} _.
Arguments endIndex {HTTPRequest} _.
Arguments invalidToken {HTTPRequest} _.
Arguments total {HTTPRequest} _.
Arguments appliedRequestType {HTTPRequest} _.

Definition DEFAULT_PAGE_SIZE : Z := 20.

Definition FILTERABLE_RESOURCE_TYPES_SET : gset JS.jsstring :=
  list_to_set FILTERABLE_RESOURCE_TYPES.

Definition isFilterableResourceType (value : JS.jsstring) : bool :=
  bool_decide (value ∈ FILTERABLE_RESOURCE_TYPES_SET).

(** [Array.isArray(requestType) ? requestType : [requestType]]. *)
Definition asArray (requestType : RequestType) : list JS.jsstring :=
  match requestType with
  | Array values => values
  | Single value => [value]
  end.

Definition sanitizeRequestTypeFilter (requestType : option RequestType)
    : option RequestType :=
  match requestType with
  | None => None
  | Some requestType =>
      let values := asArray requestType in
      let sanitized := List.filter isFilterableResourceType values in
      match sanitized with
      | [] => None
      | first :: _ =>
          match requestType with
          | Array _ => Some (Array sanitized)
          | Single _ => Some (Single first)
          end
      end
  end.

(** Truthiness of a present [requestType]: the empty string is falsy, every
    other string and every array (the empty one too) is truthy. *)
Definition truthy (requestType : RequestType) : bool :=
  match requestType with
  | Single [] => false
  | _ => true
  end.

Definition hasPagination {fraction}
    (options : NetworkRequestsListingOptions fraction) : bool :=
  negb (JS.isUndefined (pageSize options)) || negb (JS.isUndefined (pageToken options)).

(** The result is integral on every branch, hence [Z].  [total || 20] is 20
    exactly when [total] is 0; [Number.isInteger] holds of [Int] only. *)
Definition validatePageSize {fraction}
    (pageSize : option (JS.number fraction)) (total : Z) : Z :=
  match pageSize with
  | None => if total =? 0 then DEFAULT_PAGE_SIZE else total
  | Some (JS.Int pageSize) =>
      if pageSize <=? 0 then DEFAULT_PAGE_SIZE
      else Z.min pageSize (Z.max total 1)
  | Some _ => DEFAULT_PAGE_SIZE
  end.

Definition resolveStartIndex (pageToken : option JS.jsstring) (total : Z) : Z * bool :=
  match pageToken with
  | None => (0, false)
  | Some pageToken =>
      match JS.parseInt pageToken with
      | None => (0, total >? 0)
      | Some parsed =>
          if (parsed <? 0) || (parsed >=? total) then (0, total >? 0)
          else (parsed, false)
      end
  end.

Section Requests.
(** A request is opaque; the filter reads its [resourceType()]. *)
Context {HTTPRequest : Type} (resourceType : HTTPRequest → JS.jsstring).

Definition filterNetworkRequests (requests : list HTTPRequest)
    (requestType : option RequestType) : list HTTPRequest :=
  match requestType with
  | None => requests
  | Some requestType =>
      if negb (truthy requestType) then requests
      else
        let normalizedTypes : gset JS.jsstring :=
          list_to_set (asArray requestType) in
        if bool_decide (size normalizedTypes = 0%nat) then requests
        else
          List.filter
            (λ request,
               let type := resourceType request in
               if negb (isFilterableResourceType type) then false
               else bool_decide (type ∈ normalizedTypes))
            requests
  end.

Definition paginateNetworkRequests {fraction} (requests : list HTTPRequest)
    (options : option (NetworkRequestsListingOptions fraction))
    : NetworkRequestsListingResult HTTPRequest :=
  let sanitizedOptions :=
    default {| pageSize := None; pageToken := None; requestType := None |} options in
  let filteredRequests :=
    filterNetworkRequests requests (requestType sanitizedOptions) in
  let total := Z.of_nat (length filteredRequests) in
  let hasPaginationOptions := hasPagination sanitizedOptions in
  if negb hasPaginationOptions then
    {| requests := filteredRequests; nextPageToken := None;
       previousPageToken := None; startIndex := 0; endIndex := total;
       invalidToken := false; total := total;
       appliedRequestType := requestType sanitizedOptions |}
  else
    let pageSize := validatePageSize (pageSize sanitizedOptions) total in
    let '(startIndex, invalidToken) :=
      resolveStartIndex (pageToken sanitizedOptions) total in
    let pageRequests :=
      JS.slice filteredRequests (JS.Finite startIndex)
        (JS.Finite (startIndex + pageSize)) in
    let endIndex := startIndex + Z.of_nat (length pageRequests) in
    let nextPageToken :=
      if endIndex <? total then Some (JS.String endIndex) else None in
    let previousPageToken :=
      if startIndex >? 0
      then Some (JS.String (Z.max (startIndex - pageSize) 0))
      else None in
    {| requests := pageRequests; nextPageToken := nextPageToken;
       previousPageToken := previousPageToken; startIndex := startIndex;
       endIndex := endIndex; invalidToken := invalidToken; total := total;
       appliedRequestType := requestType sanitizedOptions |}.

End Requests.

End NetworkUtils.

(** ** [src/tools/network.ts]: the allow-list of the tool schema *)

Module NetworkTool.

Definition FILTERABLE_RESOURCE_TYPES : list JS.jsstring :=
  JS.lit <$> ["document"; "stylesheet"; "image"; "media"; "font"; "script";
              "texttrack"; "xhr"; "fetch"; "prefetch"; "eventsource";
              "websocket"; "manifest"; "signedexchange"; "ping";
              "cspviolationreport"; "preflight"; "fedcm"; "other"]%string.

End NetworkTool.

(** ** The other revision of [src/tools/network.ts]: its schema takes the
       list from [networkUtils.ts] *)

Module NetworkTool2.

(** [import { FILTERABLE_RESOURCE_TYPES } from '../utils/networkUtils.js']. *)
Definition FILTERABLE_RESOURCE_TYPES : list JS.jsstring :=
  NetworkUtils.FILTERABLE_RESOURCE_TYPES.

End NetworkTool2.

(** A request with a resource type and a URL, for the examples. *)
Record MockRequest : Type := {
  mock_resourceType : JS.jsstring;
  mock_url : JS.jsstring;
}.

Definition getMockRequest (resourceType url : string) : MockRequest :=
  {| mock_resourceType := JS.lit resourceType; mock_url := JS.lit url |}.

(** No fractional numbers at all: the instance the examples run with. *)
#[export] Instance no_fractions : JS.Fractions Empty_set := {|
  JS.frac_plus := λ _ (q : Empty_set), match q with end;
  JS.frac_minus := λ _ (q : Empty_set), match q with end;
  JS.frac_floor := λ q : Empty_set, match q with end;
  JS.frac_String := λ q : Empty_set, match q with end;
|}.

(** ** Notions used to state the properties *)

(** A string "does not go on with a digit" when it is empty or starts with
    another character. *)
Definition noDigitAhead (s : JS.jsstring) : Prop :=
  match s with
  | [] => True
  | c :: _ => JS.isDigit c = false
  end.

(** A token that cannot be used as a start offset into [total] items:
    parsing fails, or the parsed value is negative, or it is [>= total]. *)
Definition staleOrMalformed (pageToken : JS.jsstring) (total : Z) : Prop :=
  JS.parseInt pageToken = None ∨
  ∃ parsed, JS.parseInt pageToken = Some parsed ∧ (parsed < 0 ∨ parsed >= total).

(** The invariants of a pagination result over a collection of [total]
    items. *)
Definition resultInvariants (total startIndex endIndex : Z) (pageLength : nat)
    (nextPageToken previousPageToken : option JS.jsstring) : Prop :=
  0 ≤ startIndex ∧ startIndex ≤ endIndex ∧ endIndex ≤ total ∧
  Z.of_nat pageLength = endIndex - startIndex ∧
  (is_Some nextPageToken ↔ endIndex < total) ∧
  (is_Some previousPageToken ↔ startIndex > 0).

(** A number that is a positive integer, and the value of an integer. *)
Definition isPositiveInteger {fraction} (x : JS.number fraction) : bool :=
  match x with
  | JS.Int z => 0 <? z
  | _ => false
  end.

Definition integerValue {fraction} (x : JS.number fraction) : Z :=
  match x with
  | JS.Int z => z
  | _ => 0
  end.

(** The effective page size the way the page-size resolution is worded:
    [total] when no size is given and there is data, the default 20 when no
    size is given and there is none or when the size is not a positive
    integer, and otherwise the size clamped to [[1, max(total, 1)]]. *)
Definition effectivePageSize {fraction}
    (pageSize : option (JS.number fraction)) (total : Z) : Z :=
  match pageSize with
  | None => if 0 <? total then total else 20
  | Some size =>
      if isPositiveInteger size then Z.min (integerValue size) (Z.max total 1)
      else 20
  end.

(** [options ?? {}]. *)
Definition orEmpty {fraction}
    (options : option (NetworkUtils.NetworkRequestsListingOptions fraction))
    : NetworkUtils.NetworkRequestsListingOptions fraction :=
  default {| NetworkUtils.pageSize := None; NetworkUtils.pageToken := None;
             NetworkUtils.requestType := None |} options.

(** A category spec that asks for nothing: absent, or an empty array (it
    normalizes to the empty set). *)
Definition noCategoryRequested (requestType : option NetworkUtils.RequestType) : Prop :=
  match requestType with
  | None => True
  | Some requestType => NetworkUtils.asArray requestType = []
  end.

(** The values a raw request-type specification asks for. *)
Definition requestedValues (requestType : option NetworkUtils.RequestType)
    : list JS.jsstring :=
  from_option NetworkUtils.asArray [] requestType.

(** Following [nextPageToken]: the pages obtained by making [call] with
    [pageToken] and then with every token returned, in at most [fuel] calls;
    [None] when the calls have not come to an end by then. *)
Fixpoint followNextPageToken {A} (call : option JS.jsstring → list A * option JS.jsstring)
    (fuel : nat) (pageToken : option JS.jsstring) : option (list (list A)) :=
  match fuel with
  | O => None
  | S fuel =>
      let '(page, next) := call pageToken in
      match next with
      | None => Some [page]
      | Some token => cons page <$> followNextPageToken call fuel (Some token)
      end
  end.

(** One call of each paginator with a fixed integral page size, as the page
    and the next token it returns. *)
Definition genericCall {fraction} `{!JS.Fractions fraction} {TItem}
    (items : list TItem) (pageSize : Z) (pageToken : option JS.jsstring)
    : list TItem * option JS.jsstring :=
  let result :=
    Pagination.paginate (fraction:=fraction) items
      (Some {| Pagination.pageSize := Some (JS.Int pageSize);
               Pagination.pageToken := pageToken |}) in
  (Pagination.items result, Pagination.nextPageToken result).

Definition earlierCall {fraction HTTPRequest}
    (requests : list HTTPRequest) (pageSize : Z) (pageToken : option JS.jsstring)
    : list HTTPRequest * option JS.jsstring :=
  let result :=
    NetworkUtilsV0.paginateNetworkRequests (fraction:=fraction) requests
      (Some {| NetworkUtilsV0.pageSize := Some (JS.Int pageSize);
               NetworkUtilsV0.pageToken := pageToken |}) in
  (NetworkUtilsV0.requests result, NetworkUtilsV0.nextPageToken result).

Definition listingCall {fraction HTTPRequest} (resourceType : HTTPRequest → JS.jsstring)
    (requests : list HTTPRequest) (requestType : option NetworkUtils.RequestType)
    (pageSize : Z) (pageToken : option JS.jsstring)
    : list HTTPRequest * option JS.jsstring :=
  let result :=
    NetworkUtils.paginateNetworkRequests (fraction:=fraction) resourceType requests
      (Some {| NetworkUtils.pageSize := Some (JS.Int pageSize);
               NetworkUtils.pageToken := pageToken;
               NetworkUtils.requestType := requestType |}) in
  (NetworkUtils.requests result, NetworkUtils.nextPageToken result).

(** The categories of the tool schema's list that the filter's list lacks. *)
Definition schemaOnlyTypes : list JS.jsstring :=
  JS.lit <$> ["texttrack"; "eventsource"; "manifest"; "signedexchange"; "ping";
              "cspviolationreport"; "fedcm"]%string.

(** The cursor [pageToken] stands at offset [s] of the collection [l]: no
    token at the start, the rendering of [s] inside the collection. *)
Definition cursorAt {A} (l : list A) (s : nat) (pageToken : option JS.jsstring) : Prop :=
  (s = 0%nat ∧ pageToken = None) ∨
  ((0 < s < length l)%nat ∧ pageToken = Some (JS.String (Z.of_nat s))).

(** The [n] requests of the pagination tests, told apart by their URL. *)
Definition numberedRequests (n : nat) : list MockRequest :=
  (λ i, {| mock_resourceType := JS.lit "xhr"; mock_url := JS.String (Z.of_nat i) |})
    <$> seq 0 n.

Definition fiveRequests : list MockRequest := numberedRequests 5.

(** A document, an image and an XHR request, as in the filtering tests. *)
Definition mixedRequests : list MockRequest :=
  [getMockRequest "document" "https://example.com/document";
   getMockRequest "image" "https://example.com/image.png";
   getMockRequest "xhr" "https://example.com/api"].

(** ** Examples *)

Example String_25 : JS.String 25 = JS.lit "25".
Proof. reflexivity. Qed.
Example String_0 : JS.String 0 = JS.lit "0".
Proof. reflexivity. Qed.
Example String_1000 : JS.String 1000 = JS.lit "1000".
Proof. reflexivity. Qed.
Example String_m7 : JS.String (-7) = JS.lit "-7".
Proof. reflexivity. Qed.
Example parseInt_ex1 : JS.parseInt (JS.lit "  10abc") = Some 10.
Proof. reflexivity. Qed.
Example parseInt_ex2 : JS.parseInt (JS.lit "invalid") = None.
Proof. reflexivity. Qed.
Example parseInt_ex3 : JS.parseInt (JS.lit "-3") = Some (-3).
Proof. reflexivity. Qed.
Example parseInt_ex4 : JS.parseInt (JS.lit "+12 3") = Some 12.
Proof. reflexivity. Qed.
Example parseInt_ex5 : JS.parseInt (JS.lit "0x10") = Some 0.
Proof. reflexivity. Qed.
Example parseInt_ex6 : JS.parseInt (JS.lit "- 3") = None.
Proof. reflexivity. Qed.
Example slice_ex1 : JS.slice [1;2;3;4;5]%nat (JS.Finite 1) (JS.Finite (-2)) = [2;3]%nat.
Proof. reflexivity. Qed.
Example slice_ex2 : JS.slice [1;2;3;4;5]%nat (JS.Finite 3) (JS.Finite 2) = []%nat.
Proof. reflexivity. Qed.
Example slice_ex3 : JS.slice [1;2;3;4;5]%nat (JS.Finite 3) (JS.Finite 20) = [4;5]%nat.
Proof. reflexivity. Qed.

(** The mock requests [GET-0 .. GET-(n-1)] of the pagination tests. *)
Example requests_30_page_1 :
  let r := NetworkUtils.paginateNetworkRequests (fraction:=Empty_set) mock_resourceType
    (numberedRequests 30)
    (Some {| NetworkUtils.pageSize := Some (JS.Int 10);
             NetworkUtils.pageToken := None;
             NetworkUtils.requestType := None |}) in
  (NetworkUtils.requests r, NetworkUtils.nextPageToken r,
   NetworkUtils.previousPageToken r)
  = (take 10 (numberedRequests 30), Some (JS.lit "10"), None).
Proof. vm_compute. reflexivity. Qed.

Example requests_25_token_10 :
  let r := NetworkUtils.paginateNetworkRequests (fraction:=Empty_set) mock_resourceType
    (numberedRequests 25)
    (Some {| NetworkUtils.pageSize := Some (JS.Int 10);
             NetworkUtils.pageToken := Some (JS.lit "10");
             NetworkUtils.requestType := None |}) in
  (NetworkUtils.requests r, NetworkUtils.startIndex r, NetworkUtils.endIndex r,
   NetworkUtils.nextPageToken r, NetworkUtils.previousPageToken r)
  = (take 10 (drop 10 (numberedRequests 25)), 10, 20,
     Some (JS.lit "20"), Some (JS.lit "0")).
Proof. vm_compute. reflexivity. Qed.

Example requests_5_invalid_token :
  let r := NetworkUtils.paginateNetworkRequests (fraction:=Empty_set) mock_resourceType
    (numberedRequests 5)
    (Some {| NetworkUtils.pageSize := Some (JS.Int 2);
             NetworkUtils.pageToken := Some (JS.lit "invalid");
             NetworkUtils.requestType := None |}) in
  (NetworkUtils.requests r, NetworkUtils.invalidToken r)
  = (take 2 (numberedRequests 5), true).
Proof. vm_compute. reflexivity. Qed.

Example requests_5_no_options :
  let r := NetworkUtils.paginateNetworkRequests (fraction:=Empty_set) mock_resourceType
    (numberedRequests 5) None in
  (NetworkUtils.requests r, NetworkUtils.startIndex r, NetworkUtils.endIndex r,
   NetworkUtils.nextPageToken r, NetworkUtils.previousPageToken r,
   NetworkUtils.invalidToken r)
  = (numberedRequests 5, 0, 5, None, None, false).
Proof. vm_compute. reflexivity. Qed.

Example paginate_25_token_10 :
  let r := Pagination.paginate (fraction:=Empty_set) (numberedRequests 25)
    (Some {| Pagination.pageSize := Some (JS.Int 10);
             Pagination.pageToken := Some (JS.lit "10") |}) in
  (Pagination.items r, Pagination.nextPageToken r, Pagination.previousPageToken r)
  = (take 10 (drop 10 (numberedRequests 25)), Some (JS.lit "20"), Some (JS.lit "0")).
Proof. vm_compute. reflexivity. Qed.

(** A negative size reaches [slice] as it is and counts from the end. *)
Example paginate_negative_size :
  let r := Pagination.paginate (fraction:=Empty_set) (numberedRequests 5)
    (Some {| Pagination.pageSize := Some (JS.Int (-3));
             Pagination.pageToken := Some (JS.lit "1") |}) in
  (Pagination.items r, Pagination.endIndex r, Pagination.previousPageToken r)
  = (take 2 (drop 1 (numberedRequests 5)), 3, Some (JS.lit "4")).
Proof. vm_compute. reflexivity. Qed.

Example paginate_NaN_size :
  let r := Pagination.paginate (fraction:=Empty_set) (numberedRequests 5)
    (Some {| Pagination.pageSize := Some JS.NaN;
             Pagination.pageToken := Some (JS.lit "1") |}) in
  (Pagination.items r, Pagination.endIndex r, Pagination.previousPageToken r)
  = ([], 1, Some (JS.lit "NaN")).
Proof. vm_compute. reflexivity. Qed.

Example filter_by_image :
  NetworkUtils.filterNetworkRequests mock_resourceType mixedRequests
    (Some (NetworkUtils.Single (JS.lit "image")))
  = [getMockRequest "image" "https://example.com/image.png"].
Proof. vm_compute. reflexivity. Qed.

Example filter_by_image_and_xhr :
  NetworkUtils.filterNetworkRequests mock_resourceType mixedRequests
    (Some (NetworkUtils.Array [JS.lit "xhr"; JS.lit "image"]))
  = [getMockRequest "image" "https://example.com/image.png";
     getMockRequest "xhr" "https://example.com/api"].
Proof. vm_compute. reflexivity. Qed.

Example filter_by_font_lists_nothing :
  let r := NetworkUtils.paginateNetworkRequests (fraction:=Empty_set) mock_resourceType
    mixedRequests
    (Some {| NetworkUtils.pageSize := None; NetworkUtils.pageToken := None;
             NetworkUtils.requestType := Some (NetworkUtils.Single (JS.lit "font")) |}) in
  (NetworkUtils.requests r, NetworkUtils.total r, NetworkUtils.nextPageToken r,
   NetworkUtils.previousPageToken r)
  = ([], 0, None, None).
Proof. vm_compute. reflexivity. Qed.

Example sanitize_drops_unrecognized :
  NetworkUtils.sanitizeRequestTypeFilter
    (Some (NetworkUtils.Array [JS.lit "ping"; JS.lit "image"; JS.lit "bogus"]))
  = Some (NetworkUtils.Array [JS.lit "image"]).
Proof. vm_compute. reflexivity. Qed.

(** ** Facts about the runtime functions *)

Section JSFacts.
Import JS.

Lemma isDigit_range c : isDigit c = true ↔ (48 ≤ c ≤ 57)%N.
Proof. unfold isDigit. rewrite andb_true_iff, !N.leb_le. tauto. Qed.

Lemma digit_not_whitespace c : isDigit c = true → isWhiteSpace c = false.
Proof.
  intros Hc%isDigit_range.
  assert (∃ k : nat, (k < 10)%nat ∧ c = (48 + N.of_nat k)%N) as (k & Hk & ->).
  { exists (N.to_nat (c - 48)). lia. }
  do 10 (destruct k as [|k]; [reflexivity|]). lia.
Qed.

Lemma digit_not_sign c : isDigit c = true → (c =? 45)%N = false ∧ (c =? 43)%N = false.
Proof. intros Hc%isDigit_range. split; apply N.eqb_neq; lia. Qed.

Lemma trimStart_whitespace ws s :
  Forall (λ c, isWhiteSpace c = true) ws → trimStart (ws ++ s) = trimStart s.
Proof.
  induction 1 as [|c ws Hc _ IH]; [done|].
  cbn [app trimStart]. by rewrite Hc.
Qed.

Lemma trimStart_digit c s : isDigit c = true → trimStart (c :: s) = c :: s.
Proof. intros Hc. cbn [trimStart]. by rewrite (digit_not_whitespace c Hc). Qed.

Lemma digitPrefix_app ds junk :
  Forall (λ c, isDigit c = true) ds → noDigitAhead junk →
  digitPrefix (ds ++ junk) = ds.
Proof.
  induction 1 as [|c ds Hc _ IH]; intros Hj; cbn [app digitPrefix].
  - destruct junk as [|c junk]; [done|]. cbn [noDigitAhead digitPrefix] in *.
    by rewrite Hj.
  - rewrite Hc. f_equal. by apply IH.
Qed.

(** The shape of every token [parseInt] accepts as a non-negative integer
    without a sign: white space, digits, then anything that is not a digit. *)
Lemma parseInt_prefix ws ds junk :
  Forall (λ c, isWhiteSpace c = true) ws →
  Forall (λ c, isDigit c = true) ds → ds ≠ [] → noDigitAhead junk →
  parseInt (ws ++ ds ++ junk) = Some (digitsValue ds).
Proof.
  intros Hws Hds Hne Hjunk. unfold parseInt.
  rewrite trimStart_whitespace by done.
  destruct ds as [|c ds]; [done|].
  apply Forall_cons in Hds as Hc. destruct Hc as [Hc _].
  change ((c :: ds) ++ junk) with (c :: (ds ++ junk)).
  rewrite trimStart_digit by done.
  destruct (digit_not_sign c Hc) as [-> ->].
  change (c :: (ds ++ junk)) with ((c :: ds) ++ junk).
  rewrite digitPrefix_app by done.
  f_equal. lia.
Qed.

Lemma digitsOf_digits fuel n acc :
  0 ≤ n → Forall (λ c, isDigit c = true) acc →
  Forall (λ c, isDigit c = true) (digitsOf fuel n acc).
Proof.
  revert n acc. induction fuel as [|fuel IH]; intros n acc Hn Hacc; simpl.
  - constructor; [|done]. apply isDigit_range.
    pose proof (Z.mod_pos_bound n 10). lia.
  - assert (Forall (λ c, isDigit c = true) (Z.to_N (48 + n mod 10) :: acc)) as Hacc'.
    { constructor; [|done]. apply isDigit_range.
      pose proof (Z.mod_pos_bound n 10). lia. }
    destruct (n / 10 =? 0); [done|].
    apply IH; [|done]. apply Z.div_pos; lia.
Qed.

Lemma digitsOf_not_nil fuel n acc : digitsOf fuel n acc ≠ [].
Proof.
  revert n acc. induction fuel as [|fuel IH]; intros n acc; simpl; [done|].
  destruct (n / 10 =? 0); [done|]. apply IH.
Qed.

Lemma digitValue_digit n :
  0 ≤ n → digitValue (Z.to_N (48 + n mod 10)) = n mod 10.
Proof.
  intros Hn. unfold digitValue. pose proof (Z.mod_pos_bound n 10). lia.
Qed.

(** Reading back the digits written in front of [acc] is reading [acc] with
    [n] as the value accumulated so far. *)
Lemma digitsOf_value fuel n acc :
  0 ≤ n < 2 ^ (Z.of_nat fuel + 1) →
  foldl (λ a c, a * 10 + digitValue c) 0 (digitsOf fuel n acc)
  = foldl (λ a c, a * 10 + digitValue c) n acc.
Proof.
  revert n acc. induction fuel as [|fuel IH]; intros n acc Hn.
  - simpl. rewrite digitValue_digit by lia.
    replace (0 * 10 + n mod 10) with n; [done|].
    change (2 ^ (Z.of_nat 0 + 1)) with 2 in Hn. rewrite Z.mod_small; lia.
  - cbn [digitsOf]. destruct (n / 10 =? 0) eqn:Hq.
    + apply Z.eqb_eq in Hq. simpl. rewrite digitValue_digit by lia.
      replace (0 * 10 + n mod 10) with n; [done|].
      pose proof (Z.div_mod n 10). lia.
    + rewrite IH.
      * simpl. rewrite digitValue_digit by lia.
        replace (n / 10 * 10 + n mod 10) with n; [done|].
        pose proof (Z.div_mod n 10). lia.
      * split; [apply Z.div_pos; lia|].
        replace (Z.of_nat (S fuel) + 1) with (Z.succ (Z.of_nat fuel + 1)) in Hn by lia.
        rewrite Z.pow_succ_r in Hn by lia.
        apply Z.div_lt_upper_bound; lia.
Qed.

Lemma log2_fuel n : 0 ≤ n → n < 2 ^ (Z.of_nat (Z.to_nat (Z.log2 n)) + 1).
Proof.
  intros Hn. rewrite Z2Nat.id by apply Z.log2_nonneg.
  destruct (decide (n = 0)) as [->|]; [done|].
  replace (Z.log2 n + 1) with (Z.succ (Z.log2 n)) by lia.
  apply Z.log2_spec. lia.
Qed.

Lemma String_digits n :
  0 ≤ n →
  Forall (λ c, isDigit c = true) (String n) ∧ String n ≠ [] ∧
  digitsValue (String n) = n.
Proof.
  intros Hn. unfold String.
  destruct (n <? 0) eqn:Hneg; [apply Z.ltb_lt in Hneg; lia|].
  split_and!.
  - by apply digitsOf_digits.
  - apply digitsOf_not_nil.
  - unfold digitsValue. rewrite digitsOf_value; [done|].
    split; [done|]. by apply log2_fuel.
Qed.

(** A token the paginator issued (followed by anything that is not a digit,
    preceded by any white space) parses back to the offset it encodes. *)
Lemma parseInt_String ws n junk :
  Forall (λ c, isWhiteSpace c = true) ws → 0 ≤ n → noDigitAhead junk →
  parseInt (ws ++ String n ++ junk) = Some n.
Proof.
  intros Hws Hn Hjunk. destruct (String_digits n Hn) as (Hds & Hne & Hval).
  rewrite parseInt_prefix by done. by rewrite Hval.
Qed.

Lemma parseInt_String_exact n : 0 ≤ n → parseInt (String n) = Some n.
Proof.
  intros Hn. pose proof (parseInt_String [] n [] (Forall_nil_2 _) Hn I) as H.
  by rewrite app_nil_r in H.
Qed.

Lemma relativeIndex_bounds len r : 0 ≤ len → 0 ≤ relativeIndex len r ≤ len.
Proof.
  intros Hlen. destruct r as [z| |]; simpl; [|lia..].
  destruct (z <? 0) eqn:Hz; lia.
Qed.

(** A slice that starts inside the list is a prefix of what follows the
    start, whatever the end. *)
Lemma slice_from {A} (l : list A) s e :
  0 ≤ s ≤ Z.of_nat (length l) →
  slice l (Finite s) e
  = take (Z.to_nat (relativeIndex (Z.of_nat (length l)) e - s)) (drop (Z.to_nat s) l).
Proof.
  intros Hs. unfold slice. cbn [relativeIndex].
  destruct (s <? 0) eqn:Hneg; [apply Z.ltb_lt in Hneg; lia|].
  rewrite Z.min_l by lia. f_equal. lia.
Qed.

Lemma slice_from_length {A} (l : list A) s e :
  0 ≤ s ≤ Z.of_nat (length l) →
  s + Z.of_nat (length (slice l (Finite s) e)) ≤ Z.of_nat (length l).
Proof.
  intros Hs. rewrite slice_from by done.
  rewrite length_take, length_drop. lia.
Qed.

(** With a positive size the slice is the window of that size, clipped to
    the list. *)
Lemma slice_window {A} (l : list A) s p :
  0 ≤ s ≤ Z.of_nat (length l) → 0 < p →
  slice l (Finite s) (Finite (s + p)) = take (Z.to_nat p) (drop (Z.to_nat s) l).
Proof.
  intros Hs Hp. rewrite slice_from by done. cbn [relativeIndex].
  destruct (s + p <? 0) eqn:Hneg; [apply Z.ltb_lt in Hneg; lia|].
  destruct (decide (s + p ≤ Z.of_nat (length l))).
  - rewrite Z.min_l by lia. f_equal. lia.
  - rewrite Z.min_r by lia.
    rewrite !take_ge; [done|rewrite length_drop; lia..].
Qed.

End JSFacts.

(** ** Token resolution *)

Section Resolve.
Import JS.

Lemma resolveStartIndex_V0 pageToken total :
  NetworkUtilsV0.resolveStartIndex pageToken total
  = Pagination.resolveStartIndex pageToken total.
Proof. reflexivity. Qed.

(** The two rules differ in the flag only. *)
Lemma resolveStartIndex_fst pageToken total :
  (NetworkUtils.resolveStartIndex pageToken total).1
  = (Pagination.resolveStartIndex pageToken total).1.
Proof.
  unfold NetworkUtils.resolveStartIndex, Pagination.resolveStartIndex.
  destruct pageToken as [tok|]; [|done].
  destruct (parseInt tok) as [parsed|]; [|done].
  by destruct ((parsed <? 0) || (parsed >=? total)).
Qed.

Lemma resolveStartIndex_range pageToken total :
  0 ≤ total →
  0 ≤ (Pagination.resolveStartIndex pageToken total).1 ≤ total.
Proof.
  intros Htotal. unfold Pagination.resolveStartIndex.
  destruct pageToken as [tok|]; [|simpl; lia].
  destruct (parseInt tok) as [parsed|]; [|simpl; lia].
  destruct ((parsed <? 0) || (parsed >=? total)) eqn:Hbad; [simpl; lia|].
  apply orb_false_iff in Hbad as [Hneg Hbig]. simpl. lia.
Qed.

Lemma resolveStartIndex_rejected tok total :
  staleOrMalformed tok total →
  Pagination.resolveStartIndex (Some tok) total = (0, true) ∧
  NetworkUtils.resolveStartIndex (Some tok) total = (0, total >? 0).
Proof.
  unfold Pagination.resolveStartIndex, NetworkUtils.resolveStartIndex.
  intros [->|(parsed & -> & Hbad)]; [done|].
  assert ((parsed <? 0) || (parsed >=? total) = true) as ->; [|done].
  apply orb_true_iff. destruct Hbad; [left|right]; lia.
Qed.

Lemma resolveStartIndex_accepted tok total parsed :
  parseInt tok = Some parsed → 0 ≤ parsed < total →
  Pagination.resolveStartIndex (Some tok) total = (parsed, false) ∧
  NetworkUtils.resolveStartIndex (Some tok) total = (parsed, false).
Proof.
  unfold Pagination.resolveStartIndex, NetworkUtils.resolveStartIndex.
  intros -> Hrange.
  assert ((parsed <? 0) || (parsed >=? total) = false) as ->; [|done].
  apply orb_false_iff. lia.
Qed.

End Resolve.

(** ** The two paths of each paginator *)

Section Paths.
Context {fraction : Type} `{!JS.Fractions fraction}.
Context {HTTPRequest : Type} (resourceType : HTTPRequest → JS.jsstring).

Lemma paginate_everything (items : list HTTPRequest)
    (options : option (Pagination.PaginationOptions fraction)) :
  from_option Pagination.noPaginationOptions true options = true →
  Pagination.paginate items options
  = {| Pagination.items := items; Pagination.nextPageToken := None;
       Pagination.previousPageToken := None; Pagination.startIndex := 0;
       Pagination.endIndex := Z.of_nat (length items);
       Pagination.invalidToken := false |}.
Proof.
  unfold Pagination.paginate. destruct options as [options|]; [|done].
  cbn [from_option]. by intros ->.
Qed.

Lemma paginate_page (items : list HTTPRequest)
    (options : Pagination.PaginationOptions fraction) startIndex invalidToken :
  Pagination.noPaginationOptions options = false →
  Pagination.resolveStartIndex (Pagination.pageToken options)
    (Z.of_nat (length items)) = (startIndex, invalidToken) →
  let pageSize :=
    default (JS.Int Pagination.DEFAULT_PAGE_SIZE) (Pagination.pageSize options) in
  let pageItems :=
    JS.slice items (JS.Finite startIndex)
      (JS.ToIntegerOrInfinity (JS.plus startIndex pageSize)) in
  let endIndex := startIndex + Z.of_nat (length pageItems) in
  Pagination.paginate items (Some options)
  = {| Pagination.items := pageItems;
       Pagination.nextPageToken :=
         if endIndex <? Z.of_nat (length items)
         then Some (JS.String endIndex) else None;
       Pagination.previousPageToken :=
         if startIndex >? 0
         then Some (JS.StringOfNumber (JS.Math_max (JS.minus startIndex pageSize) 0))
         else None;
       Pagination.startIndex := startIndex;
       Pagination.endIndex := endIndex;
       Pagination.invalidToken := invalidToken |}.
Proof. intros Hopt Hres. unfold Pagination.paginate. by rewrite Hopt, Hres. Qed.

Lemma paginateV0_everything (requests : list HTTPRequest)
    (options : option (NetworkUtilsV0.NetworkPaginationOptions fraction)) :
  from_option NetworkUtilsV0.noPaginationOptions true options = true →
  NetworkUtilsV0.paginateNetworkRequests requests options
  = {| NetworkUtilsV0.requests := requests;
       NetworkUtilsV0.nextPageToken := None;
       NetworkUtilsV0.previousPageToken := None;
       NetworkUtilsV0.startIndex := 0;
       NetworkUtilsV0.endIndex := Z.of_nat (length requests);
       NetworkUtilsV0.invalidToken := false |}.
Proof.
  unfold NetworkUtilsV0.paginateNetworkRequests.
  destruct options as [options|]; [|done].
  cbn [from_option]. by intros ->.
Qed.

Lemma paginateV0_page (requests : list HTTPRequest)
    (options : NetworkUtilsV0.NetworkPaginationOptions fraction)
    startIndex invalidToken :
  NetworkUtilsV0.noPaginationOptions options = false →
  NetworkUtilsV0.resolveStartIndex (NetworkUtilsV0.pageToken options)
    (Z.of_nat (length requests)) = (startIndex, invalidToken) →
  let pageSize :=
    NetworkUtilsV0.validatePageSize (NetworkUtilsV0.pageSize options)
      (Z.of_nat (length requests)) in
  let pageRequests :=
    JS.slice requests (JS.Finite startIndex) (JS.Finite (startIndex + pageSize)) in
  let endIndex := startIndex + Z.of_nat (length pageRequests) in
  NetworkUtilsV0.paginateNetworkRequests requests (Some options)
  = {| NetworkUtilsV0.requests := pageRequests;
       NetworkUtilsV0.nextPageToken :=
         if endIndex <? Z.of_nat (length requests)
         then Some (JS.String endIndex) else None;
       NetworkUtilsV0.previousPageToken :=
         if startIndex >? 0
         then Some (JS.String (Z.max (startIndex - pageSize) 0)) else None;
       NetworkUtilsV0.startIndex := startIndex;
       NetworkUtilsV0.endIndex := endIndex;
       NetworkUtilsV0.invalidToken := invalidToken |}.
Proof.
  intros Hopt Hres. unfold NetworkUtilsV0.paginateNetworkRequests.
  by rewrite Hopt, Hres.
Qed.

Lemma listing_everything (requests : list HTTPRequest)
    (options : option (NetworkUtils.NetworkRequestsListingOptions fraction)) :
  NetworkUtils.hasPagination (orEmpty options) = false →
  let filtered :=
    NetworkUtils.filterNetworkRequests resourceType requests
      (NetworkUtils.requestType (orEmpty options)) in
  NetworkUtils.paginateNetworkRequests resourceType requests options
  = {| NetworkUtils.requests := filtered;
       NetworkUtils.nextPageToken := None;
       NetworkUtils.previousPageToken := None;
       NetworkUtils.startIndex := 0;
       NetworkUtils.endIndex := Z.of_nat (length filtered);
       NetworkUtils.invalidToken := false;
       NetworkUtils.total := Z.of_nat (length filtered);
       NetworkUtils.appliedRequestType :=
         NetworkUtils.requestType (orEmpty options) |}.
Proof.
  intros Hopt. unfold NetworkUtils.paginateNetworkRequests.
  fold (orEmpty options). by rewrite Hopt.
Qed.

Lemma listing_page (requests : list HTTPRequest)
    (options : option (NetworkUtils.NetworkRequestsListingOptions fraction))
    startIndex invalidToken :
  NetworkUtils.hasPagination (orEmpty options) = true →
  let filtered :=
    NetworkUtils.filterNetworkRequests resourceType requests
      (NetworkUtils.requestType (orEmpty options)) in
  let total := Z.of_nat (length filtered) in
  NetworkUtils.resolveStartIndex (NetworkUtils.pageToken (orEmpty options)) total
  = (startIndex, invalidToken) →
  let pageSize :=
    NetworkUtils.validatePageSize (NetworkUtils.pageSize (orEmpty options)) total in
  let pageRequests :=
    JS.slice filtered (JS.Finite startIndex) (JS.Finite (startIndex + pageSize)) in
  let endIndex := startIndex + Z.of_nat (length pageRequests) in
  NetworkUtils.paginateNetworkRequests resourceType requests options
  = {| NetworkUtils.requests := pageRequests;
       NetworkUtils.nextPageToken :=
         if endIndex <? total then Some (JS.String endIndex) else None;
       NetworkUtils.previousPageToken :=
         if startIndex >? 0
         then Some (JS.String (Z.max (startIndex - pageSize) 0)) else None;
       NetworkUtils.startIndex := startIndex;
       NetworkUtils.endIndex := endIndex;
       NetworkUtils.invalidToken := invalidToken;
       NetworkUtils.total := total;
       NetworkUtils.appliedRequestType :=
         NetworkUtils.requestType (orEmpty options) |}.
Proof.
  intros Hopt filtered total Hres. unfold NetworkUtils.paginateNetworkRequests.
  fold (orEmpty options). fold filtered. fold total.
  by rewrite Hopt, Hres.
Qed.

End Paths.

(** ** The invariants of a window *)

Section Window.
Import JS.

Lemma is_Some_if {A} (b : bool) (x : A) : is_Some (if b then Some x else None) ↔ b = true.
Proof.
  destruct b; split; [done|by eexists|by intros [? ?]|done].
Qed.

Lemma everything_invariants {A} (l : list A) :
  resultInvariants (Z.of_nat (length l)) 0 (Z.of_nat (length l)) (length l) None None.
Proof.
  unfold resultInvariants. split_and!; try lia.
  - split; [by intros [? ?]|lia].
  - split; [by intros [? ?]|lia].
Qed.

Lemma window_invariants {A} (l : list A) s e (next prev : jsstring) :
  0 ≤ s ≤ Z.of_nat (length l) →
  let page := slice l (Finite s) e in
  let endIndex := s + Z.of_nat (length page) in
  resultInvariants (Z.of_nat (length l)) s endIndex (length page)
    (if endIndex <? Z.of_nat (length l) then Some next else None)
    (if s >? 0 then Some prev else None).
Proof.
  intros Hs page endIndex.
  pose proof (slice_from_length l s e Hs) as Hend. fold page in Hend.
  unfold resultInvariants. rewrite !is_Some_if.
  split_and!; try lia.
Qed.

Lemma resolveStartIndex_pair_range pageToken total s inv :
  0 ≤ total → Pagination.resolveStartIndex pageToken total = (s, inv) →
  0 ≤ s ≤ total.
Proof.
  intros Htotal Hres. pose proof (resolveStartIndex_range pageToken total Htotal) as H.
  by rewrite Hres in H.
Qed.

Lemma resolveStartIndex_listing_range pageToken total s inv :
  0 ≤ total → NetworkUtils.resolveStartIndex pageToken total = (s, inv) →
  0 ≤ s ≤ total.
Proof.
  intros Htotal Hres. pose proof (resolveStartIndex_range pageToken total Htotal) as H.
  by rewrite <- resolveStartIndex_fst, Hres in H.
Qed.

Lemma take_length_take {A} (l : list A) n : take (length (take n l)) l = take n l.
Proof.
  rewrite length_take. destruct (decide (n ≤ length l)%nat).
  - by rewrite Nat.min_l.
  - rewrite Nat.min_r by lia. rewrite !take_ge; [done|lia..].
Qed.

(** The page is the part of the collection between the two indices. *)
Lemma slice_between {A} (l : list A) s e :
  0 ≤ s ≤ Z.of_nat (length l) →
  let page := slice l (Finite s) e in
  page = take (Z.to_nat (s + Z.of_nat (length page) - s)) (drop (Z.to_nat s) l).
Proof.
  intros Hs page. replace (s + Z.of_nat (length page) - s) with (Z.of_nat (length page)) by lia.
  rewrite Nat2Z.id. subst page. rewrite slice_from by done.
  by rewrite take_length_take.
Qed.

Lemma validatePageSize_effective {fraction} (pageSize : option (number fraction)) total :
  0 ≤ total →
  NetworkUtils.validatePageSize pageSize total = effectivePageSize pageSize total ∧
  NetworkUtilsV0.validatePageSize pageSize total = effectivePageSize pageSize total ∧
  1 ≤ effectivePageSize pageSize total.
Proof.
  intros Htotal.
  unfold NetworkUtils.validatePageSize, NetworkUtilsV0.validatePageSize,
    effectivePageSize, isPositiveInteger, integerValue,
    NetworkUtils.DEFAULT_PAGE_SIZE, NetworkUtilsV0.DEFAULT_PAGE_SIZE.
  destruct pageSize as [[z|q| | |]|]; try (split_and!; [done|done|lia]).
  - destruct (z <=? 0) eqn:Hle, (0 <? z) eqn:Hlt; split_and!; lia.
  - destruct (total =? 0) eqn:Hz, (0 <? total) eqn:Hlt; split_and!; lia.
Qed.

(** With no size given, the window at 0 is the whole collection. *)
Lemma take_effective_everything {fraction A} (l : list A) :
  take (Z.to_nat (effectivePageSize (fraction:=fraction) None (Z.of_nat (length l))))
    (drop (Z.to_nat 0) l) = l.
Proof.
  unfold effectivePageSize. change (Z.to_nat 0) with 0%nat. rewrite drop_0.
  destruct (0 <? Z.of_nat (length l)) eqn:Hlt.
  - apply take_ge. lia.
  - apply take_ge. apply Z.ltb_ge in Hlt. lia.
Qed.

End Window.

(** ** The filter *)

Section Filter.
Context {HTTPRequest : Type} (resourceType : HTTPRequest → JS.jsstring).

(** [Array.prototype.filter] with a boolean callback keeps the elements of
    the property the callback decides. *)
Lemma List_filter_decide {A} (f : A → bool) (P : A → Prop) `{!∀ x, Decision (P x)}
    (l : list A) :
  (∀ x, f x = true ↔ P x) → List.filter f l = filter P l.
Proof.
  intros Hf. induction l as [|x l IH]; [done|].
  cbn [List.filter]. rewrite filter_cons.
  destruct (f x) eqn:Hx, (decide (P x)) as [HP|HP].
  - by rewrite IH.
  - by apply Hf in Hx.
  - apply Hf in HP. congruence.
  - done.
Qed.

Lemma isFilterableResourceType_spec value :
  NetworkUtils.isFilterableResourceType value = true
  ↔ value ∈ NetworkUtils.FILTERABLE_RESOURCE_TYPES.
Proof.
  unfold NetworkUtils.isFilterableResourceType,
    NetworkUtils.FILTERABLE_RESOURCE_TYPES_SET.
  by rewrite bool_decide_eq_true, elem_of_list_to_set.
Qed.

Lemma size_list_to_set_0 (values : list JS.jsstring) :
  size (list_to_set (C:=gset JS.jsstring) values) = 0%nat ↔ values = [].
Proof.
  rewrite size_empty_iff. split; [|by intros ->].
  destruct values as [|v values]; [done|]. intros Hempty.
  assert (v ∈ list_to_set (C:=gset JS.jsstring) (v :: values)) as Hin.
  { apply elem_of_list_to_set. left. }
  rewrite Hempty in Hin. by apply not_elem_of_empty in Hin.
Qed.

(** The filter on a truthy, non-empty request type. *)
Lemma filterNetworkRequests_active requests requestType :
  NetworkUtils.truthy requestType = true →
  NetworkUtils.asArray requestType ≠ [] →
  NetworkUtils.filterNetworkRequests resourceType requests (Some requestType)
  = filter (λ request,
              resourceType request ∈ NetworkUtils.FILTERABLE_RESOURCE_TYPES ∧
              resourceType request ∈ NetworkUtils.asArray requestType)
      requests.
Proof.
  intros Htruthy Hne. unfold NetworkUtils.filterNetworkRequests.
  rewrite Htruthy. cbn [negb].
  rewrite bool_decide_eq_false_2 by by rewrite size_list_to_set_0.
  apply List_filter_decide. intros request. cbn zeta.
  destruct (NetworkUtils.isFilterableResourceType (resourceType request)) eqn:Hallow;
    cbn [negb].
  - rewrite bool_decide_eq_true, elem_of_list_to_set.
    apply isFilterableResourceType_spec in Hallow. tauto.
  - split; [done|]. intros [Hin _].
    apply isFilterableResourceType_spec in Hin. congruence.
Qed.

Lemma filterNetworkRequests_inactive requests requestType :
  noCategoryRequested requestType →
  NetworkUtils.filterNetworkRequests resourceType requests requestType = requests.
Proof.
  unfold NetworkUtils.filterNetworkRequests.
  destruct requestType as [requestType|]; [|done]. cbn. intros Hnone.
  destruct (NetworkUtils.truthy requestType); [|done]. cbn [negb].
  by rewrite Hnone.
Qed.

Lemma List_filter_nil_iff {A} (f : A → bool) (l : list A) :
  List.filter f l = [] ↔ ∀ x, x ∈ l → f x = false.
Proof.
  induction l as [|x l IH]; cbn [List.filter].
  - split; [|done]. intros _ x Hx. by apply elem_of_nil in Hx.
  - destruct (f x) eqn:Hx.
    + split; [done|]. intros Hall. specialize (Hall x (list_elem_of_here _ _)).
      congruence.
    + rewrite IH. split.
      * intros Hall y [->|Hy]%elem_of_cons; [done|by apply Hall].
      * intros Hall y Hy. apply Hall. by right.
Qed.

(** What [sanitizeRequestTypeFilter] returns: a single value passes when it
    is in the allow-list; of an array the allow-listed values remain, in
    order; nothing is returned exactly when no requested value is in the
    allow-list. *)
Lemma sanitizeRequestTypeFilter_spec raw :
  let sanitized := NetworkUtils.sanitizeRequestTypeFilter raw in
  (∀ value, sanitized = Some (NetworkUtils.Single value) →
     raw = Some (NetworkUtils.Single value) ∧
     value ∈ NetworkUtils.FILTERABLE_RESOURCE_TYPES) ∧
  (∀ values, sanitized = Some (NetworkUtils.Array values) →
     ∃ rawValues, raw = Some (NetworkUtils.Array rawValues) ∧
       values = filter (λ v, v ∈ NetworkUtils.FILTERABLE_RESOURCE_TYPES) rawValues ∧
       values ≠ []) ∧
  (sanitized = None ↔
     ∀ value, value ∈ requestedValues raw →
       value ∉ NetworkUtils.FILTERABLE_RESOURCE_TYPES).
Proof.
  unfold NetworkUtils.sanitizeRequestTypeFilter, requestedValues.
  destruct raw as [raw|]; cbn [from_option].
  2: { split_and!; [done|done|]. split; [|done].
       intros _ value Hv. by apply elem_of_nil in Hv. }
  destruct (List.filter NetworkUtils.isFilterableResourceType
              (NetworkUtils.asArray raw)) as [|first rest] eqn:Hfilter.
  - split_and!; [done|done|]. split; [|done]. intros _ value Hv Hallow.
    apply isFilterableResourceType_spec in Hallow.
    pose proof (proj1 (List_filter_nil_iff _ _) Hfilter value Hv). congruence.
  - assert (first ∈ List.filter NetworkUtils.isFilterableResourceType
                      (NetworkUtils.asArray raw)) as Hfirst.
    { rewrite Hfilter. left. }
    apply list_elem_of_In, List.filter_In in Hfirst as [Hin Hallow].
    apply list_elem_of_In in Hin. apply isFilterableResourceType_spec in Hallow.
    destruct raw as [value|rawValues]; cbn [NetworkUtils.asArray] in *.
    + apply list_elem_of_singleton in Hin as ->. split_and!.
      * by intros ? [= <-].
      * done.
      * split; [done|]. intros Hnone. exfalso.
        apply (Hnone value); [left|done].
    + split_and!.
      * done.
      * intros values [= <-]. exists rawValues. split_and!; [done| |done].
        rewrite <- Hfilter. apply List_filter_decide, isFilterableResourceType_spec.
      * split; [done|]. intros Hnone. exfalso. by apply (Hnone first).
Qed.

End Filter.

(** ** Following the next-page tokens *)

Section Chain.
Context {A : Type} (l : list A) (q : nat).
Context (call : option JS.jsstring → list A * option JS.jsstring).

Hypothesis q_positive : (1 ≤ q)%nat.
Hypothesis call_window : ∀ s pageToken,
  cursorAt l s pageToken →
  call pageToken
  = (take q (drop s l),
     if (s + q <? length l)%nat then Some (JS.String (Z.of_nat (s + q))) else None).

Lemma followNextPageToken_from fuel s pageToken :
  cursorAt l s pageToken → (length l - s < fuel)%nat →
  ∃ pages, followNextPageToken call fuel pageToken = Some pages ∧
           concat pages = drop s l.
Proof.
  revert s pageToken. induction fuel as [|fuel IH]; intros s pageToken Hcur Hfuel;
    [lia|].
  cbn [followNextPageToken]. rewrite (call_window s pageToken Hcur).
  destruct (s + q <? length l)%nat eqn:Hmore.
  - apply Nat.ltb_lt in Hmore.
    destruct (IH (s + q)%nat (Some (JS.String (Z.of_nat (s + q))))) as (pages & -> & Hcat).
    { right. split; [lia|done]. }
    { lia. }
    eexists. split; [done|]. cbn [concat]. rewrite Hcat.
    rewrite <- drop_drop. apply take_drop.
  - apply Nat.ltb_ge in Hmore. eexists. split; [done|].
    cbn [concat]. rewrite app_nil_r. apply take_ge. rewrite length_drop. lia.
Qed.

Lemma followNextPageToken_all :
  ∃ pages, followNextPageToken call (S (length l)) None = Some pages ∧
           concat pages = l.
Proof.
  destruct (followNextPageToken_from (S (length l)) 0 None) as (pages & Hrun & Hcat).
  - by left.
  - lia.
  - exists pages. split; [done|]. by rewrite Hcat, drop_0.
Qed.

End Chain.

Section Calls.
Context {fraction : Type} `{!JS.Fractions fraction}.
Context {HTTPRequest : Type} (resourceType : HTTPRequest → JS.jsstring).

(** The window at [s] of a positive size [v] and the token after it, in the
    form [followNextPageToken_from] expects. *)
Lemma window_call (l : list HTTPRequest) (s : nat) (v : Z) :
  0 < v → (s ≤ length l)%nat →
  let page := JS.slice l (JS.Finite (Z.of_nat s)) (JS.Finite (Z.of_nat s + v)) in
  let endIndex := Z.of_nat s + Z.of_nat (length page) in
  (page, if endIndex <? Z.of_nat (length l) then Some (JS.String endIndex) else None)
  = (take (Z.to_nat v) (drop s l),
     if (s + Z.to_nat v <? length l)%nat
     then Some (JS.String (Z.of_nat (s + Z.to_nat v))) else None).
Proof.
  intros Hv Hs page endIndex. subst endIndex page.
  rewrite slice_window by lia. rewrite Nat2Z.id.
  rewrite length_take, length_drop. f_equal.
  destruct (s + Z.to_nat v <? length l)%nat eqn:Hmore.
  - apply Nat.ltb_lt in Hmore.
    rewrite (proj2 (Z.ltb_lt _ _)) by lia. do 2 f_equal. lia.
  - apply Nat.ltb_ge in Hmore. by rewrite (proj2 (Z.ltb_ge _ _)) by lia.
Qed.

(** A cursor resolves to its offset, under either rule. *)
Lemma cursorAt_resolve (l : list HTTPRequest) s pageToken :
  cursorAt l s pageToken →
  (s ≤ length l)%nat ∧
  Pagination.resolveStartIndex pageToken (Z.of_nat (length l)) = (Z.of_nat s, false) ∧
  NetworkUtils.resolveStartIndex pageToken (Z.of_nat (length l)) = (Z.of_nat s, false).
Proof.
  intros [[-> ->]|[Hs ->]].
  - split; [lia|done].
  - split; [lia|]. apply resolveStartIndex_accepted; [|lia].
    apply parseInt_String_exact. lia.
Qed.

Lemma genericCall_window (items : list HTTPRequest) (pageSize : Z) s pageToken :
  0 < pageSize → cursorAt items s pageToken →
  genericCall (fraction:=fraction) items pageSize pageToken
  = (take (Z.to_nat pageSize) (drop s items),
     if (s + Z.to_nat pageSize <? length items)%nat
     then Some (JS.String (Z.of_nat (s + Z.to_nat pageSize))) else None).
Proof.
  intros Hsize (Hs & Hres & _)%cursorAt_resolve. unfold genericCall.
  erewrite paginate_page; [|done|exact Hres].
  cbn. by apply window_call.
Qed.

Lemma earlierCall_window (requests : list HTTPRequest) (pageSize : Z) s pageToken :
  0 < pageSize → cursorAt requests s pageToken →
  let size := effectivePageSize (fraction:=fraction) (Some (JS.Int pageSize))
                (Z.of_nat (length requests)) in
  earlierCall (fraction:=fraction) requests pageSize pageToken
  = (take (Z.to_nat size) (drop s requests),
     if (s + Z.to_nat size <? length requests)%nat
     then Some (JS.String (Z.of_nat (s + Z.to_nat size))) else None).
Proof.
  intros Hsize (Hs & Hres & _)%cursorAt_resolve size. unfold earlierCall.
  erewrite paginateV0_page; [|done|exact Hres].
  destruct (validatePageSize_effective (fraction:=fraction) (Some (JS.Int pageSize))
              (Z.of_nat (length requests))) as (_ & Hv & Hpos); [lia|].
  cbn [NetworkUtilsV0.requests NetworkUtilsV0.nextPageToken NetworkUtilsV0.pageSize].
  rewrite Hv. fold size. apply window_call; [|done]. subst size. lia.
Qed.

Lemma listingCall_window (requests : list HTTPRequest) requestType (pageSize : Z)
    s pageToken :
  let filtered := NetworkUtils.filterNetworkRequests resourceType requests requestType in
  0 < pageSize → cursorAt filtered s pageToken →
  let size := effectivePageSize (fraction:=fraction) (Some (JS.Int pageSize))
                (Z.of_nat (length filtered)) in
  listingCall (fraction:=fraction) resourceType requests requestType pageSize pageToken
  = (take (Z.to_nat size) (drop s filtered),
     if (s + Z.to_nat size <? length filtered)%nat
     then Some (JS.String (Z.of_nat (s + Z.to_nat size))) else None).
Proof.
  intros filtered Hsize (Hs & _ & Hres)%cursorAt_resolve size. unfold listingCall.
  erewrite listing_page; [|done|exact Hres].
  destruct (validatePageSize_effective (fraction:=fraction) (Some (JS.Int pageSize))
              (Z.of_nat (length filtered))) as (Hv & _ & Hpos); [lia|].
  unfold orEmpty.
  cbn [NetworkUtils.requests NetworkUtils.nextPageToken NetworkUtils.pageSize
       NetworkUtils.requestType from_option id].
  fold filtered. rewrite Hv. fold size. apply window_call; [|done]. subst size. lia.
Qed.

End Calls.

(** ** Properties of the results *)

Section Claims.
Context {fraction : Type} `{!JS.Fractions fraction}.
Context {HTTPRequest : Type} (resourceType : HTTPRequest → JS.jsstring).

(** C1 (amended).  A page token that does not parse, or parses to a negative
    value or to a value [>= total], sends every paginator back to the first
    page: [startIndex = 0].  The generic [paginate] and the earlier
    [paginateNetworkRequests] then set [invalidToken]; the listing sets it
    exactly when the filtered collection is not empty. *)
Theorem C1_rejected_token_first_page
    (requests : list HTTPRequest) (pageSize : option (JS.number fraction))
    (pageToken : JS.jsstring) (requestType : option NetworkUtils.RequestType) :
  let filtered := NetworkUtils.filterNetworkRequests resourceType requests requestType in
  let total := Z.of_nat (length filtered) in
  let generic :=
    Pagination.paginate filtered
      (Some {| Pagination.pageSize := pageSize;
               Pagination.pageToken := Some pageToken |}) in
  let earlier :=
    NetworkUtilsV0.paginateNetworkRequests filtered
      (Some {| NetworkUtilsV0.pageSize := pageSize;
               NetworkUtilsV0.pageToken := Some pageToken |}) in
  let listing :=
    NetworkUtils.paginateNetworkRequests resourceType requests
      (Some {| NetworkUtils.pageSize := pageSize;
               NetworkUtils.pageToken := Some pageToken;
               NetworkUtils.requestType := requestType |}) in
  staleOrMalformed pageToken total →
  (Pagination.startIndex generic = 0 ∧ Pagination.invalidToken generic = true) ∧
  (NetworkUtilsV0.startIndex earlier = 0 ∧
   NetworkUtilsV0.invalidToken earlier = true) ∧
  (NetworkUtils.startIndex listing = 0 ∧
   NetworkUtils.invalidToken listing = (total >? 0)) ∧
  NetworkUtils.total listing = total.
Proof.
  intros filtered total generic earlier listing Hbad.
  destruct (resolveStartIndex_rejected _ _ Hbad) as [Hgen Hlist].
  subst generic earlier listing.
  erewrite paginate_page; [|by destruct pageSize|exact Hgen].
  erewrite paginateV0_page; [|by destruct pageSize|exact Hgen].
  erewrite listing_page; [|by destruct pageSize|exact Hlist].
  done.
Qed.

(** C2.  Every result of every paginator, whatever the collection and the
    options, satisfies [0 <= startIndex <= endIndex <= total], has a page of
    [endIndex - startIndex] items, carries [nextPageToken] exactly when
    [endIndex < total] and [previousPageToken] exactly when [startIndex > 0]. *)
Theorem C2_result_invariants
    (items requests : list HTTPRequest)
    (genericOptions : option (Pagination.PaginationOptions fraction))
    (earlierOptions : option (NetworkUtilsV0.NetworkPaginationOptions fraction))
    (listingOptions : option (NetworkUtils.NetworkRequestsListingOptions fraction)) :
  let generic := Pagination.paginate items genericOptions in
  let earlier := NetworkUtilsV0.paginateNetworkRequests items earlierOptions in
  let listing :=
    NetworkUtils.paginateNetworkRequests resourceType requests listingOptions in
  resultInvariants (Z.of_nat (length items))
    (Pagination.startIndex generic) (Pagination.endIndex generic)
    (length (Pagination.items generic))
    (Pagination.nextPageToken generic) (Pagination.previousPageToken generic) ∧
  resultInvariants (Z.of_nat (length items))
    (NetworkUtilsV0.startIndex earlier) (NetworkUtilsV0.endIndex earlier)
    (length (NetworkUtilsV0.requests earlier))
    (NetworkUtilsV0.nextPageToken earlier)
    (NetworkUtilsV0.previousPageToken earlier) ∧
  resultInvariants (NetworkUtils.total listing)
    (NetworkUtils.startIndex listing) (NetworkUtils.endIndex listing)
    (length (NetworkUtils.requests listing))
    (NetworkUtils.nextPageToken listing)
    (NetworkUtils.previousPageToken listing).
Proof.
  intros generic earlier listing. split_and!.
  - subst generic.
    destruct (from_option Pagination.noPaginationOptions true genericOptions)
      eqn:Hopt.
    + rewrite paginate_everything by done. apply everything_invariants.
    + destruct genericOptions as [options|]; [|done]. cbn [from_option] in Hopt.
      destruct (Pagination.resolveStartIndex (Pagination.pageToken options)
                  (Z.of_nat (length items))) as [s inv] eqn:Hres.
      erewrite paginate_page by done.
      apply window_invariants.
      eapply resolveStartIndex_pair_range; [lia|done].
  - subst earlier.
    destruct (from_option NetworkUtilsV0.noPaginationOptions true earlierOptions)
      eqn:Hopt.
    + rewrite paginateV0_everything by done. apply everything_invariants.
    + destruct earlierOptions as [options|]; [|done]. cbn [from_option] in Hopt.
      destruct (NetworkUtilsV0.resolveStartIndex (NetworkUtilsV0.pageToken options)
                  (Z.of_nat (length items))) as [s inv] eqn:Hres.
      erewrite paginateV0_page by done.
      apply window_invariants.
      eapply resolveStartIndex_pair_range; [lia|done].
  - subst listing.
    destruct (NetworkUtils.hasPagination (orEmpty listingOptions)) eqn:Hopt.
    + destruct (NetworkUtils.resolveStartIndex
                  (NetworkUtils.pageToken (orEmpty listingOptions))
                  (Z.of_nat (length (NetworkUtils.filterNetworkRequests resourceType
                     requests (NetworkUtils.requestType (orEmpty listingOptions))))))
        as [s inv] eqn:Hres.
      erewrite listing_page by done.
      apply window_invariants.
      eapply resolveStartIndex_listing_range; [lia|done].
    + rewrite listing_everything by done. apply everything_invariants.
Qed.

(** C3 (amended).  In both revisions of [paginateNetworkRequests] the
    effective page size is: [total] when [pageSize] is unspecified and
    [total > 0]; 20 when it is unspecified and [total = 0], or specified but
    not a positive integer; otherwise [min(pageSize, max(total, 1))].  It is
    at least 1, and the page is the window of that size at [startIndex],
    clipped to the collection.  The generic [paginate] does not resolve the
    size: on its paginated path the window ends at [startIndex + pageSize]
    with [pageSize] as given, 20 when unspecified. *)
Theorem C3_effective_page_size
    (requests : list HTTPRequest) (pageSize : option (JS.number fraction))
    (pageToken : option JS.jsstring) (requestType : option NetworkUtils.RequestType) :
  let filtered := NetworkUtils.filterNetworkRequests resourceType requests requestType in
  let total := Z.of_nat (length filtered) in
  let size := effectivePageSize pageSize total in
  let generic :=
    Pagination.paginate filtered
      (Some {| Pagination.pageSize := pageSize; Pagination.pageToken := pageToken |}) in
  let earlier :=
    NetworkUtilsV0.paginateNetworkRequests filtered
      (Some {| NetworkUtilsV0.pageSize := pageSize;
               NetworkUtilsV0.pageToken := pageToken |}) in
  let listing :=
    NetworkUtils.paginateNetworkRequests resourceType requests
      (Some {| NetworkUtils.pageSize := pageSize;
               NetworkUtils.pageToken := pageToken;
               NetworkUtils.requestType := requestType |}) in
  NetworkUtils.validatePageSize pageSize total = size ∧
  NetworkUtilsV0.validatePageSize pageSize total = size ∧
  1 ≤ size ∧
  NetworkUtils.requests listing
  = take (Z.to_nat size) (drop (Z.to_nat (NetworkUtils.startIndex listing)) filtered) ∧
  NetworkUtilsV0.requests earlier
  = take (Z.to_nat size) (drop (Z.to_nat (NetworkUtilsV0.startIndex earlier)) filtered) ∧
  (JS.isUndefined pageSize && JS.isUndefined pageToken = false →
   Pagination.items generic
   = JS.slice filtered (JS.Finite (Pagination.startIndex generic))
       (JS.ToIntegerOrInfinity
          (JS.plus (Pagination.startIndex generic)
             (default (JS.Int 20) pageSize)))).
Proof.
  intros filtered total size generic earlier listing.
  destruct (validatePageSize_effective pageSize total) as (Hnew & Hold & Hpos);
    [lia|]. fold size in Hnew, Hold, Hpos.
  split_and!; try done.
  - subst listing.
    destruct (JS.isUndefined pageSize && JS.isUndefined pageToken) eqn:Hopt.
    + apply andb_true_iff in Hopt as [Hps Htok].
      destruct pageSize; [done|]. destruct pageToken; [done|].
      rewrite listing_everything by done. cbn.
      fold filtered. subst size total.
      symmetry. apply (take_effective_everything (fraction:=fraction) filtered).
    + destruct (NetworkUtils.resolveStartIndex pageToken total) as [s inv] eqn:Hres.
      erewrite listing_page; [|by destruct pageSize, pageToken|exact Hres].
      cbn. fold filtered. fold total. rewrite Hnew.
      apply slice_window; [|lia].
      eapply resolveStartIndex_listing_range; [|done]. lia.
  - subst earlier.
    destruct (JS.isUndefined pageSize && JS.isUndefined pageToken) eqn:Hopt.
    + apply andb_true_iff in Hopt as [Hps Htok].
      destruct pageSize; [done|]. destruct pageToken; [done|].
      rewrite paginateV0_everything by done. cbn.
      subst size total.
      symmetry. apply (take_effective_everything (fraction:=fraction) filtered).
    + destruct (NetworkUtilsV0.resolveStartIndex pageToken total) as [s inv] eqn:Hres.
      erewrite paginateV0_page; [|exact Hopt|exact Hres].
      cbn. fold total. rewrite Hold.
      apply slice_window; [|lia].
      eapply resolveStartIndex_pair_range; [|done]. lia.
  - intros Hopt. subst generic.
    destruct (Pagination.resolveStartIndex pageToken total) as [s inv] eqn:Hres.
    erewrite paginate_page; [|exact Hopt|exact Hres]. done.
Qed.

(** C4.  The listing filters first and paginates the filtered view: [total]
    is the number of requests the filter keeps, the indices lie within the
    filtered view, the page is the part of the filtered view between them,
    and the whole result is the one obtained by listing the filtered view
    itself with no filter. *)
Theorem C4_filter_before_pagination
    (requests : list HTTPRequest)
    (options : option (NetworkUtils.NetworkRequestsListingOptions fraction)) :
  let requestType := NetworkUtils.requestType (orEmpty options) in
  let filtered := NetworkUtils.filterNetworkRequests resourceType requests requestType in
  let listing := NetworkUtils.paginateNetworkRequests resourceType requests options in
  let unfiltered :=
    NetworkUtils.paginateNetworkRequests resourceType filtered
      (Some {| NetworkUtils.pageSize := NetworkUtils.pageSize (orEmpty options);
               NetworkUtils.pageToken := NetworkUtils.pageToken (orEmpty options);
               NetworkUtils.requestType := None |}) in
  NetworkUtils.total listing = Z.of_nat (length filtered) ∧
  0 ≤ NetworkUtils.startIndex listing ∧
  NetworkUtils.startIndex listing ≤ NetworkUtils.endIndex listing ∧
  NetworkUtils.endIndex listing ≤ Z.of_nat (length filtered) ∧
  NetworkUtils.requests listing
  = take (Z.to_nat (NetworkUtils.endIndex listing - NetworkUtils.startIndex listing))
      (drop (Z.to_nat (NetworkUtils.startIndex listing)) filtered) ∧
  NetworkUtils.requests listing = NetworkUtils.requests unfiltered ∧
  NetworkUtils.startIndex listing = NetworkUtils.startIndex unfiltered ∧
  NetworkUtils.endIndex listing = NetworkUtils.endIndex unfiltered ∧
  NetworkUtils.total listing = NetworkUtils.total unfiltered ∧
  NetworkUtils.nextPageToken listing = NetworkUtils.nextPageToken unfiltered ∧
  NetworkUtils.previousPageToken listing = NetworkUtils.previousPageToken unfiltered ∧
  NetworkUtils.invalidToken listing = NetworkUtils.invalidToken unfiltered.
Proof.
  intros requestType filtered listing unfiltered. subst listing unfiltered.
  destruct (NetworkUtils.hasPagination (orEmpty options)) eqn:Hopt.
  - destruct (NetworkUtils.resolveStartIndex
                (NetworkUtils.pageToken (orEmpty options))
                (Z.of_nat (length filtered))) as [s inv] eqn:Hres.
    assert (0 ≤ s ≤ Z.of_nat (length filtered)) as Hs.
    { eapply resolveStartIndex_listing_range; [|done]. lia. }
    erewrite (listing_page _ requests) by done.
    erewrite (listing_page _ filtered); [|exact Hopt|exact Hres].
    cbn. fold requestType. fold filtered.
    pose proof (slice_from_length filtered s
      (JS.Finite (s + NetworkUtils.validatePageSize
         (NetworkUtils.pageSize (orEmpty options)) (Z.of_nat (length filtered)))) Hs).
    split_and!; try done; try lia.
    by apply slice_between.
  - rewrite (listing_everything _ requests) by done.
    rewrite (listing_everything _ filtered) by done.
    cbn. fold requestType. fold filtered.
    split_and!; try done; try lia.
    replace (Z.of_nat (length filtered) - 0) with (Z.of_nat (length filtered)) by lia.
    rewrite Nat2Z.id. cbn. by rewrite firstn_all.
Qed.

(** C5.  For every list of requests and every category spec (a string other
    than the empty one, or an array): when the spec is absent or an empty
    array the filter returns its input; otherwise it returns exactly the
    requests, in their order, whose resource type is in the allow-list and
    among the requested values, so that a request whose type is not in the
    allow-list is never kept. *)
Theorem C5_filter_subsequence
    (requests : list HTTPRequest) (requestType : option NetworkUtils.RequestType) :
  requestType ≠ Some (NetworkUtils.Single []) →
  let filtered := NetworkUtils.filterNetworkRequests resourceType requests requestType in
  (noCategoryRequested requestType → filtered = requests) ∧
  (∀ requested, requestType = Some requested → NetworkUtils.asArray requested ≠ [] →
     filtered
     = filter (λ request,
                 resourceType request ∈ NetworkUtils.FILTERABLE_RESOURCE_TYPES ∧
                 resourceType request ∈ NetworkUtils.asArray requested)
         requests ∧
     filtered `sublist_of` requests ∧
     ∀ request, resourceType request ∉ NetworkUtils.FILTERABLE_RESOURCE_TYPES →
                request ∉ filtered).
Proof.
  intros Htyped filtered. split.
  - apply filterNetworkRequests_inactive.
  - intros requested -> Hne. subst filtered.
    rewrite filterNetworkRequests_active; [|by destruct requested as [[|]|]|done].
    split_and!; [done|apply sublist_filter|].
    intros request Hnot Hin. apply list_elem_of_filter in Hin. tauto.
Qed.

(** C6 (amended).  The listing echoes the [requestType] option it is given,
    unchanged, as [appliedRequestType].  It is the sanitized specification
    when the caller passes the result of [sanitizeRequestTypeFilter]: then
    the values outside the allow-list are gone from it, and it is absent
    exactly when no requested value is in the allow-list. *)
Theorem C6_applied_request_type_echo
    (requests : list HTTPRequest)
    (options : option (NetworkUtils.NetworkRequestsListingOptions fraction))
    (pageSize : option (JS.number fraction)) (pageToken : option JS.jsstring)
    (raw : option NetworkUtils.RequestType) :
  let sanitized := NetworkUtils.sanitizeRequestTypeFilter raw in
  let listing :=
    NetworkUtils.paginateNetworkRequests resourceType requests
      (Some {| NetworkUtils.pageSize := pageSize;
               NetworkUtils.pageToken := pageToken;
               NetworkUtils.requestType := sanitized |}) in
  NetworkUtils.appliedRequestType
    (NetworkUtils.paginateNetworkRequests resourceType requests options)
  = NetworkUtils.requestType (orEmpty options) ∧
  NetworkUtils.appliedRequestType listing = sanitized ∧
  (∀ value, sanitized = Some (NetworkUtils.Single value) →
     raw = Some (NetworkUtils.Single value) ∧
     value ∈ NetworkUtils.FILTERABLE_RESOURCE_TYPES) ∧
  (∀ values, sanitized = Some (NetworkUtils.Array values) →
     ∃ rawValues, raw = Some (NetworkUtils.Array rawValues) ∧
       values = filter (λ v, v ∈ NetworkUtils.FILTERABLE_RESOURCE_TYPES) rawValues ∧
       values ≠ []) ∧
  (sanitized = None ↔
     ∀ value, value ∈ requestedValues raw →
       value ∉ NetworkUtils.FILTERABLE_RESOURCE_TYPES).
Proof.
  intros sanitized listing.
  assert (∀ options : option (NetworkUtils.NetworkRequestsListingOptions fraction),
            NetworkUtils.appliedRequestType
              (NetworkUtils.paginateNetworkRequests resourceType requests options)
            = NetworkUtils.requestType (orEmpty options)) as Hecho.
  { intros o. destruct (NetworkUtils.hasPagination (orEmpty o)) eqn:Hopt.
    - destruct (NetworkUtils.resolveStartIndex (NetworkUtils.pageToken (orEmpty o))
        (Z.of_nat (length (NetworkUtils.filterNetworkRequests resourceType requests
           (NetworkUtils.requestType (orEmpty o)))))) as [s inv] eqn:Hres.
      by erewrite listing_page.
    - by rewrite listing_everything. }
  split; [apply Hecho|]. split; [subst listing; by rewrite Hecho|].
  apply sanitizeRequestTypeFilter_spec.
Qed.

(** C7.  In every result [nextPageToken] is [String(endIndex)] when
    [endIndex < total] and absent otherwise, and [previousPageToken] is
    [String(max(startIndex - pageSize, 0))] when [startIndex > 0] and absent
    otherwise, with [pageSize] the size resolved from the options of this
    very call: the effective page size in [paginateNetworkRequests], the
    given size or 20 in [paginate].  In [paginate] the size is not validated;
    for an integral size the rendering is the decimal one of the exact
    difference as long as [startIndex - pageSize <= 2^53], the range in which
    the runtime subtracts without rounding (every size that is not negative
    is in it: the difference is then at most [startIndex]); for [NaN], the
    infinities and the fractions it is [String] of the number the runtime
    computes. *)
Theorem C7_page_tokens
    (items requests : list HTTPRequest)
    (genericOptions : option (Pagination.PaginationOptions fraction))
    (earlierOptions : option (NetworkUtilsV0.NetworkPaginationOptions fraction))
    (listingOptions : option (NetworkUtils.NetworkRequestsListingOptions fraction)) :
  let generic := Pagination.paginate items genericOptions in
  let earlier := NetworkUtilsV0.paginateNetworkRequests items earlierOptions in
  let listing :=
    NetworkUtils.paginateNetworkRequests resourceType requests listingOptions in
  let genericSize :=
    default (JS.Int 20) (from_option Pagination.pageSize None genericOptions) in
  let earlierSize :=
    effectivePageSize (from_option NetworkUtilsV0.pageSize None earlierOptions)
      (Z.of_nat (length items)) in
  let listingSize :=
    effectivePageSize (NetworkUtils.pageSize (orEmpty listingOptions))
      (NetworkUtils.total listing) in
  (Pagination.nextPageToken generic
   = (if Pagination.endIndex generic <? Z.of_nat (length items)
      then Some (JS.String (Pagination.endIndex generic)) else None) ∧
   ((∀ size, genericSize ≠ JS.Int size) →
    Pagination.previousPageToken generic
    = (if Pagination.startIndex generic >? 0
       then Some (JS.StringOfNumber
                    (JS.Math_max (JS.minus (Pagination.startIndex generic) genericSize) 0))
       else None)) ∧
   ∀ size, genericSize = JS.Int size →
     Pagination.startIndex generic - size ≤ 2 ^ 53 →
     Pagination.previousPageToken generic
     = (if Pagination.startIndex generic >? 0
        then Some (JS.String (Z.max (Pagination.startIndex generic - size) 0))
        else None)) ∧
  (NetworkUtilsV0.nextPageToken earlier
   = (if NetworkUtilsV0.endIndex earlier <? Z.of_nat (length items)
      then Some (JS.String (NetworkUtilsV0.endIndex earlier)) else None) ∧
   NetworkUtilsV0.previousPageToken earlier
   = (if NetworkUtilsV0.startIndex earlier >? 0
      then Some (JS.String (Z.max (NetworkUtilsV0.startIndex earlier - earlierSize) 0))
      else None)) ∧
  (NetworkUtils.nextPageToken listing
   = (if NetworkUtils.endIndex listing <? NetworkUtils.total listing
      then Some (JS.String (NetworkUtils.endIndex listing)) else None) ∧
   NetworkUtils.previousPageToken listing
   = (if NetworkUtils.startIndex listing >? 0
      then Some (JS.String (Z.max (NetworkUtils.startIndex listing - listingSize) 0))
      else None)).
Proof.
  intros generic earlier listing genericSize earlierSize listingSize.
  split_and!.
  - subst generic.
    destruct (from_option Pagination.noPaginationOptions true genericOptions) eqn:Hopt.
    + rewrite paginate_everything by done. cbn. by rewrite Z.ltb_irrefl.
    + destruct genericOptions as [options|]; [|done]. cbn [from_option] in Hopt.
      destruct (Pagination.resolveStartIndex (Pagination.pageToken options)
                  (Z.of_nat (length items))) as [s inv] eqn:Hres.
      by erewrite paginate_page.
  - intros _. subst generic genericSize.
    destruct (from_option Pagination.noPaginationOptions true genericOptions) eqn:Hopt.
    + by rewrite paginate_everything.
    + destruct genericOptions as [options|]; [|done]. cbn [from_option] in Hopt.
      destruct (Pagination.resolveStartIndex (Pagination.pageToken options)
                  (Z.of_nat (length items))) as [s inv] eqn:Hres.
      by erewrite paginate_page.
  - intros size Hsize _. subst generic genericSize.
    destruct (from_option Pagination.noPaginationOptions true genericOptions) eqn:Hopt.
    + by rewrite paginate_everything.
    + destruct genericOptions as [options|]; [|done].
      cbn [from_option] in Hopt, Hsize.
      destruct (Pagination.resolveStartIndex (Pagination.pageToken options)
                  (Z.of_nat (length items))) as [s inv] eqn:Hres.
      erewrite paginate_page by done. cbn.
      change Pagination.DEFAULT_PAGE_SIZE with 20. by rewrite Hsize.
  - subst earlier.
    destruct (from_option NetworkUtilsV0.noPaginationOptions true earlierOptions)
      eqn:Hopt.
    + rewrite paginateV0_everything by done. cbn. by rewrite Z.ltb_irrefl.
    + destruct earlierOptions as [options|]; [|done]. cbn [from_option] in Hopt.
      destruct (NetworkUtilsV0.resolveStartIndex (NetworkUtilsV0.pageToken options)
                  (Z.of_nat (length items))) as [s inv] eqn:Hres.
      by erewrite paginateV0_page.
  - subst earlier earlierSize.
    destruct (from_option NetworkUtilsV0.noPaginationOptions true earlierOptions)
      eqn:Hopt.
    + by rewrite paginateV0_everything.
    + destruct earlierOptions as [options|]; [|done]. cbn [from_option] in Hopt |- *.
      destruct (NetworkUtilsV0.resolveStartIndex (NetworkUtilsV0.pageToken options)
                  (Z.of_nat (length items))) as [s inv] eqn:Hres.
      erewrite paginateV0_page by done. cbn.
      destruct (validatePageSize_effective (NetworkUtilsV0.pageSize options)
                  (Z.of_nat (length items))) as (_ & -> & _); [lia|done].
  - subst listing.
    destruct (NetworkUtils.hasPagination (orEmpty listingOptions)) eqn:Hopt.
    + destruct (NetworkUtils.resolveStartIndex
                  (NetworkUtils.pageToken (orEmpty listingOptions))
                  (Z.of_nat (length (NetworkUtils.filterNetworkRequests resourceType
                     requests (NetworkUtils.requestType (orEmpty listingOptions))))))
        as [s inv] eqn:Hres.
      by erewrite listing_page.
    + rewrite listing_everything by done. cbn. by rewrite Z.ltb_irrefl.
  - subst listing listingSize.
    destruct (NetworkUtils.hasPagination (orEmpty listingOptions)) eqn:Hopt.
    + destruct (NetworkUtils.resolveStartIndex
                  (NetworkUtils.pageToken (orEmpty listingOptions))
                  (Z.of_nat (length (NetworkUtils.filterNetworkRequests resourceType
                     requests (NetworkUtils.requestType (orEmpty listingOptions))))))
        as [s inv] eqn:Hres.
      erewrite listing_page by done. cbn.
      destruct (validatePageSize_effective
                  (NetworkUtils.pageSize (orEmpty listingOptions))
                  (Z.of_nat (length (NetworkUtils.filterNetworkRequests resourceType
                     requests (NetworkUtils.requestType (orEmpty listingOptions))))))
        as (-> & _ & _); [lia|done].
    + by rewrite listing_everything.
Qed.

(** C8.  For every collection and every fixed positive integral page size,
    calling a paginator with no token and then again with each
    [nextPageToken] it returns comes to an end (within [total + 1] calls a
    result without [nextPageToken] is reached), and the pages returned, put
    end to end, are exactly the collection: every position of [[0, total)]
    once, in order.  For the listing the collection is the filtered view. *)
Theorem C8_following_next_tokens
    (requests : list HTTPRequest) (requestType : option NetworkUtils.RequestType)
    (pageSize : Z) :
  0 < pageSize →
  let filtered := NetworkUtils.filterNetworkRequests resourceType requests requestType in
  let calls := S (length filtered) in
  (∃ pages,
     followNextPageToken (genericCall (fraction:=fraction) filtered pageSize)
       calls None = Some pages ∧ concat pages = filtered) ∧
  (∃ pages,
     followNextPageToken (earlierCall (fraction:=fraction) filtered pageSize)
       calls None = Some pages ∧ concat pages = filtered) ∧
  (∃ pages,
     followNextPageToken
       (listingCall (fraction:=fraction) resourceType requests requestType pageSize)
       calls None = Some pages ∧ concat pages = filtered).
Proof.
  intros Hsize filtered calls.
  destruct (validatePageSize_effective (fraction:=fraction) (Some (JS.Int pageSize))
              (Z.of_nat (length filtered))) as (_ & _ & Hpos); [lia|].
  split_and!.
  - apply (followNextPageToken_all filtered (Z.to_nat pageSize)); [lia|].
    intros s pageToken Hcur. by apply genericCall_window.
  - apply (followNextPageToken_all filtered
             (Z.to_nat (effectivePageSize (fraction:=fraction)
                (Some (JS.Int pageSize)) (Z.of_nat (length filtered))))); [lia|].
    intros s pageToken Hcur. by apply earlierCall_window.
  - apply (followNextPageToken_all filtered
             (Z.to_nat (effectivePageSize (fraction:=fraction)
                (Some (JS.Int pageSize)) (Z.of_nat (length filtered))))); [lia|].
    intros s pageToken Hcur. by apply listingCall_window.
Qed.

(** C10.  On the paginated path, a page token that [Number.parseInt] reads
    as an integer [parsed] with [0 <= parsed < total] is accepted by every
    paginator: [startIndex = parsed] and [invalidToken = false].  This
    includes every token made of white space, the decimal digits of such an
    offset, and then anything that does not begin with a digit. *)
Theorem C10_numeric_prefix_accepted
    (requests : list HTTPRequest) (pageSize : option (JS.number fraction))
    (pageToken : JS.jsstring) (requestType : option NetworkUtils.RequestType)
    (parsed : Z) :
  let filtered := NetworkUtils.filterNetworkRequests resourceType requests requestType in
  let total := Z.of_nat (length filtered) in
  let generic :=
    Pagination.paginate filtered
      (Some {| Pagination.pageSize := pageSize;
               Pagination.pageToken := Some pageToken |}) in
  let earlier :=
    NetworkUtilsV0.paginateNetworkRequests filtered
      (Some {| NetworkUtilsV0.pageSize := pageSize;
               NetworkUtilsV0.pageToken := Some pageToken |}) in
  let listing :=
    NetworkUtils.paginateNetworkRequests resourceType requests
      (Some {| NetworkUtils.pageSize := pageSize;
               NetworkUtils.pageToken := Some pageToken;
               NetworkUtils.requestType := requestType |}) in
  0 ≤ parsed < total →
  JS.parseInt pageToken = Some parsed ∨
  (∃ whitespace junk,
     Forall (λ c, JS.isWhiteSpace c = true) whitespace ∧ noDigitAhead junk ∧
     pageToken = whitespace ++ JS.String parsed ++ junk) →
  (Pagination.startIndex generic = parsed ∧ Pagination.invalidToken generic = false) ∧
  (NetworkUtilsV0.startIndex earlier = parsed ∧
   NetworkUtilsV0.invalidToken earlier = false) ∧
  (NetworkUtils.startIndex listing = parsed ∧
   NetworkUtils.invalidToken listing = false).
Proof.
  intros filtered total generic earlier listing Hrange Htoken.
  assert (JS.parseInt pageToken = Some parsed) as Hparse.
  { destruct Htoken as [?|(ws & junk & Hws & Hjunk & ->)]; [done|].
    apply parseInt_String; [done|lia|done]. }
  destruct (resolveStartIndex_accepted _ _ _ Hparse Hrange) as [Hgen Hlist].
  subst generic earlier listing.
  erewrite paginate_page; [|by destruct pageSize|exact Hgen].
  erewrite paginateV0_page; [|by destruct pageSize|exact Hgen].
  erewrite listing_page; [|by destruct pageSize|exact Hlist].
  done.
Qed.

End Claims.

(** C9 (amended).  The revision of the tool schema that takes page tokens
    uses the filter's allow-list itself.  The revision that declares a list
    of its own has a different one: the filter's list is that list with seven
    categories left out and the order kept, and those seven are the values
    of the schema's list that [isFilterableResourceType] does not
    recognize. *)
Theorem C9_filter_list_within_schema_list :
  NetworkTool2.FILTERABLE_RESOURCE_TYPES = NetworkUtils.FILTERABLE_RESOURCE_TYPES ∧
  NetworkUtils.FILTERABLE_RESOURCE_TYPES
    `sublist_of` NetworkTool.FILTERABLE_RESOURCE_TYPES ∧
  length NetworkUtils.FILTERABLE_RESOURCE_TYPES = 12%nat ∧
  length NetworkTool.FILTERABLE_RESOURCE_TYPES = 19%nat ∧
  ∀ value, value ∈ NetworkTool.FILTERABLE_RESOURCE_TYPES →
    (NetworkUtils.isFilterableResourceType value = false ↔ value ∈ schemaOnlyTypes).
Proof.
  split_and!; [done| |done|done|].
  - unfold NetworkUtils.FILTERABLE_RESOURCE_TYPES, NetworkTool.FILTERABLE_RESOURCE_TYPES.
    cbn [fmap list_fmap].
    repeat first [apply sublist_nil | apply sublist_skip | apply sublist_cons].
  - intros value Hin.
    assert (NetworkUtils.isFilterableResourceType value
            = negb (bool_decide (value ∈ schemaOnlyTypes))) as ->.
    { unfold NetworkTool.FILTERABLE_RESOURCE_TYPES in Hin. cbn [fmap list_fmap] in Hin.
      rewrite !elem_of_cons, elem_of_nil in Hin.
      repeat (destruct Hin as [Heq|Hin]; [subst value; by vm_compute|]). done. }
    rewrite negb_false_iff, bool_decide_eq_true. done.
Qed.

(** ** The properties at concrete inputs *)

(** C1, at five requests, page size 2 and the token ["invalid"]. *)
Lemma C1_rejected_token_witness :
  staleOrMalformed (JS.lit "invalid") 5 ∧
  NetworkUtils.startIndex
    (NetworkUtils.paginateNetworkRequests (fraction:=Empty_set) mock_resourceType
       fiveRequests
       (Some {| NetworkUtils.pageSize := Some (JS.Int 2);
                NetworkUtils.pageToken := Some (JS.lit "invalid");
                NetworkUtils.requestType := None |})) = 0.
Proof.
  split; [by left|].
  apply (C1_rejected_token_first_page (fraction:=Empty_set) mock_resourceType
           fiveRequests (Some (JS.Int 2)) (JS.lit "invalid") None).
  by left.
Defined.

(** C1 as stated fails in the listing: against an empty collection the
    token ["5"] is out of range, yet [invalidToken] is not set. *)
Lemma C1_counterexample :
  let listing :=
    NetworkUtils.paginateNetworkRequests (fraction:=Empty_set) mock_resourceType []
      (Some {| NetworkUtils.pageSize := None;
               NetworkUtils.pageToken := Some (JS.lit "5");
               NetworkUtils.requestType := None |}) in
  JS.parseInt (JS.lit "5") = Some 5 ∧ 5 >= NetworkUtils.total listing ∧
  NetworkUtils.startIndex listing = 0 ∧
  NetworkUtils.invalidToken listing ≠ true.
Proof. vm_compute. split_and!; done. Qed.

(** C3 as stated fails in the generic [paginate]: with no page size and 30
    items the page from the token ["0"] has 20 items, not all 30; the page
    size [-1] is used as it is (the page stops one item short of the end)
    instead of being replaced by 20; and so is the page size 0, which gives
    an empty page and a next token that stays at ["0"]. *)
Lemma C3_counterexample :
  let items := numberedRequests 30 in
  let unspecified :=
    Pagination.paginate (fraction:=Empty_set) items
      (Some {| Pagination.pageSize := None;
               Pagination.pageToken := Some (JS.lit "0") |}) in
  let negative :=
    Pagination.paginate (fraction:=Empty_set) items
      (Some {| Pagination.pageSize := Some (JS.Int (-1));
               Pagination.pageToken := None |}) in
  let zero :=
    Pagination.paginate (fraction:=Empty_set) items
      (Some {| Pagination.pageSize := Some (JS.Int 0);
               Pagination.pageToken := None |}) in
  (effectivePageSize (fraction:=Empty_set) None 30 = 30 ∧
   length (Pagination.items unspecified) = 20%nat ∧
   Pagination.nextPageToken unspecified = Some (JS.lit "20")) ∧
  (effectivePageSize (fraction:=Empty_set) (Some (JS.Int (-1))) 30 = 20 ∧
   length (Pagination.items negative) = 29%nat) ∧
  (effectivePageSize (fraction:=Empty_set) (Some (JS.Int 0)) 30 = 20 ∧
   Pagination.items zero = [] ∧
   Pagination.nextPageToken zero = Some (JS.lit "0")).
Proof. vm_compute. split_and!; done. Qed.

(** C3, at 30 items, no page size and the token ["0"]. *)
Lemma C3_effective_page_size_witness :
  let items := numberedRequests 30 in
  let generic :=
    Pagination.paginate (fraction:=Empty_set) items
      (Some {| Pagination.pageSize := None;
               Pagination.pageToken := Some (JS.lit "0") |}) in
  Pagination.items generic
  = JS.slice items (JS.Finite (Pagination.startIndex generic))
      (JS.ToIntegerOrInfinity
         (JS.plus (Pagination.startIndex generic) (JS.Int (fraction:=Empty_set) 20))).
Proof.
  intros items generic.
  apply (C3_effective_page_size (fraction:=Empty_set) mock_resourceType
           items None (Some (JS.lit "0")) None).
  reflexivity.
Defined.

(** C5, at the mixed requests filtered by ["image"]. *)
Lemma C5_filter_witness :
  Some (NetworkUtils.Single (JS.lit "image")) ≠ Some (NetworkUtils.Single []) ∧
  NetworkUtils.filterNetworkRequests mock_resourceType mixedRequests
    (Some (NetworkUtils.Single (JS.lit "image")))
  = filter (λ request,
              mock_resourceType request ∈ NetworkUtils.FILTERABLE_RESOURCE_TYPES ∧
              mock_resourceType request ∈ [JS.lit "image"])
      mixedRequests.
Proof.
  split; [done|].
  destruct (C5_filter_subsequence mock_resourceType mixedRequests
              (Some (NetworkUtils.Single (JS.lit "image")))) as [_ Hactive];
    [done|].
  destruct (Hactive _ eq_refl) as [Heq _]; [done|]. exact Heq.
Defined.

(** C6 as stated fails: the listing echoes an empty array where the
    sanitized specification is absent, and it echoes a value outside the
    allow-list that sanitization drops. *)
Lemma C6_counterexample :
  let echo requestType :=
    NetworkUtils.appliedRequestType
      (NetworkUtils.paginateNetworkRequests (fraction:=Empty_set) mock_resourceType
         mixedRequests
         (Some {| NetworkUtils.pageSize := None; NetworkUtils.pageToken := None;
                  NetworkUtils.requestType := requestType |})) in
  let empty := Some (NetworkUtils.Array []) in
  let bogus := Some (NetworkUtils.Array [JS.lit "bogus"; JS.lit "image"]) in
  echo empty = empty ∧ NetworkUtils.sanitizeRequestTypeFilter empty = None ∧
  echo empty ≠ NetworkUtils.sanitizeRequestTypeFilter empty ∧
  echo bogus = bogus ∧
  NetworkUtils.sanitizeRequestTypeFilter bogus
  = Some (NetworkUtils.Array [JS.lit "image"]) ∧
  echo bogus ≠ NetworkUtils.sanitizeRequestTypeFilter bogus.
Proof. vm_compute. split_and!; done. Qed.

(** C7, at 25 requests, page size 10 and the token ["10"] in [paginate]. *)
Lemma C7_page_tokens_witness :
  let generic :=
    Pagination.paginate (fraction:=Empty_set) (numberedRequests 25)
      (Some {| Pagination.pageSize := Some (JS.Int 10);
               Pagination.pageToken := Some (JS.lit "10") |}) in
  Pagination.startIndex generic - 10 ≤ 2 ^ 53 ∧
  Pagination.previousPageToken generic
  = (if Pagination.startIndex generic >? 0
     then Some (JS.String (Z.max (Pagination.startIndex generic - 10) 0))
     else None).
Proof.
  intros generic.
  assert (Pagination.startIndex generic - 10 ≤ 2 ^ 53) as Hexact by (by vm_compute).
  split; [exact Hexact|].
  destruct (C7_page_tokens (fraction:=Empty_set) mock_resourceType
              (numberedRequests 25) []
              (Some {| Pagination.pageSize := Some (JS.Int 10);
                       Pagination.pageToken := Some (JS.lit "10") |})
              None None) as [(_ & _ & Hintegral) _].
  exact (Hintegral 10 eq_refl Hexact).
Defined.

(** C8, at 25 requests and page size 10. *)
Lemma C8_following_next_tokens_witness :
  0 < 10 ∧
  ∃ pages,
    followNextPageToken
      (listingCall (fraction:=Empty_set) mock_resourceType
         (numberedRequests 25) None 10)
      26 None = Some pages ∧
    concat pages = numberedRequests 25.
Proof.
  split; [lia|].
  apply (C8_following_next_tokens (fraction:=Empty_set) mock_resourceType
           (numberedRequests 25) None 10).
  lia.
Defined.

(** C9 as stated fails: the two lists differ. *)
Lemma C9_counterexample :
  NetworkUtils.FILTERABLE_RESOURCE_TYPES ≠ NetworkTool.FILTERABLE_RESOURCE_TYPES.
Proof. intros Heq. apply (f_equal length) in Heq. discriminate Heq. Qed.

(** C10, at 25 requests and the token [" 10abc"]. *)
Lemma C10_numeric_prefix_witness :
  0 ≤ 10 < 25 ∧ JS.parseInt (JS.lit " 10abc") = Some 10 ∧
  let listing :=
    NetworkUtils.paginateNetworkRequests (fraction:=Empty_set) mock_resourceType
      (numberedRequests 25)
      (Some {| NetworkUtils.pageSize := Some (JS.Int 10);
               NetworkUtils.pageToken := Some (JS.lit " 10abc");
               NetworkUtils.requestType := None |}) in
  NetworkUtils.startIndex listing = 10 ∧ NetworkUtils.invalidToken listing = false.
Proof.
  split; [lia|]. split; [reflexivity|].
  apply (C10_numeric_prefix_accepted (fraction:=Empty_set) mock_resourceType
           (numberedRequests 25) (Some (JS.Int 10))
           (JS.lit " 10abc") None 10).
  - cbn. lia.
  - left. reflexivity.
Defined.

(** ** Further properties of the filter and of the listing *)

Section Shape.
Context {fraction : Type} `{!JS.Fractions fraction}.
Context {HTTPRequest : Type} (resourceType : HTTPRequest → JS.jsstring).

Lemma List_filter_idem {A} (f : A → bool) (l : list A) :
  List.filter f (List.filter f l) = List.filter f l.
Proof.
  induction l as [|x l IH]; [done|]. cbn [List.filter].
  destruct (f x) eqn:Hx; [|done]. cbn [List.filter]. by rewrite Hx, IH.
Qed.

Lemma List_filter_all {A} (f : A → bool) (l : list A) :
  (∀ x, x ∈ l → f x = true) → List.filter f l = l.
Proof.
  induction l as [|x l IH]; intros Hall; [done|]. cbn [List.filter].
  rewrite Hall by left. f_equal. apply IH. intros y Hy. apply Hall. by right.
Qed.

(** Absent options are the options with no field. *)
Lemma listing_no_options (requests : list HTTPRequest) :
  NetworkUtils.paginateNetworkRequests (fraction:=fraction) resourceType requests None
  = NetworkUtils.paginateNetworkRequests (fraction:=fraction) resourceType requests
      (Some {| NetworkUtils.pageSize := None; NetworkUtils.pageToken := None;
               NetworkUtils.requestType := None |}).
Proof. reflexivity. Qed.

(** The start offset a token resolves to lies inside the collection, or the
    collection is empty. *)
Lemma resolveStartIndex_inside pageToken total :
  0 ≤ total →
  let s := (NetworkUtils.resolveStartIndex pageToken total).1 in
  0 ≤ s ∧ (s < total ∨ (s = 0 ∧ total = 0)).
Proof.
  intros Htotal. unfold NetworkUtils.resolveStartIndex.
  destruct pageToken as [tok|]; [|cbn; lia].
  destruct (JS.parseInt tok) as [parsed|]; [|cbn; lia].
  destruct ((parsed <? 0) || (parsed >=? total)) eqn:Hbad; [cbn; lia|].
  apply orb_false_iff in Hbad as [Hneg Hbig]. cbn. lia.
Qed.

(** Every field of a listing result, on either path, in terms of the start
    offset the token resolves to and of the effective page size. *)
Lemma listing_shape (requests : list HTTPRequest) pageSize pageToken requestType :
  let filtered := NetworkUtils.filterNetworkRequests resourceType requests requestType in
  let total := Z.of_nat (length filtered) in
  let size := effectivePageSize (fraction:=fraction) pageSize total in
  let s := (NetworkUtils.resolveStartIndex pageToken total).1 in
  let listing :=
    NetworkUtils.paginateNetworkRequests resourceType requests
      (Some {| NetworkUtils.pageSize := pageSize;
               NetworkUtils.pageToken := pageToken;
               NetworkUtils.requestType := requestType |}) in
  NetworkUtils.startIndex listing = s ∧
  NetworkUtils.requests listing = take (Z.to_nat size) (drop (Z.to_nat s) filtered) ∧
  NetworkUtils.endIndex listing = Z.min (s + size) total ∧
  NetworkUtils.nextPageToken listing
  = (if s + size <? total then Some (JS.String (s + size)) else None) ∧
  NetworkUtils.previousPageToken listing
  = (if s >? 0 then Some (JS.String (Z.max (s - size) 0)) else None) ∧
  NetworkUtils.invalidToken listing
  = (NetworkUtils.resolveStartIndex pageToken total).2 ∧
  NetworkUtils.total listing = total.
Proof.
  intros filtered total size s listing.
  destruct (validatePageSize_effective pageSize total) as (Hv & _ & Hpos); [lia|].
  fold size in Hv, Hpos.
  pose proof (resolveStartIndex_inside pageToken total ltac:(lia)) as Hs.
  cbn zeta in Hs. fold s in Hs.
  destruct (JS.isUndefined pageSize && JS.isUndefined pageToken) eqn:Hopt.
  - apply andb_true_iff in Hopt as [Hps Htok].
    destruct pageSize; [done|]. destruct pageToken; [done|].
    subst listing. rewrite listing_everything by done.
    cbn [NetworkUtils.requests NetworkUtils.nextPageToken
         NetworkUtils.previousPageToken NetworkUtils.startIndex
         NetworkUtils.endIndex NetworkUtils.invalidToken NetworkUtils.total
         NetworkUtils.requestType orEmpty from_option id].
    fold filtered. fold total.
    assert (s = 0) as Hs0 by done. assert (total ≤ size) as Hsize.
    { subst size. unfold effectivePageSize. destruct (0 <? total) eqn:Hlt; lia. }
    rewrite Hs0. split_and!; try done.
    + change (Z.to_nat 0) with 0%nat. rewrite drop_0, take_ge; [done|lia].
    + lia.
    + by rewrite (proj2 (Z.ltb_ge _ _)) by lia.
  - subst listing.
    destruct (NetworkUtils.resolveStartIndex pageToken total) as [s' inv] eqn:Hres.
    cbn [fst] in s. subst s.
    erewrite listing_page; [|by destruct pageSize, pageToken|exact Hres].
    cbn [NetworkUtils.requests NetworkUtils.nextPageToken
         NetworkUtils.previousPageToken NetworkUtils.startIndex
         NetworkUtils.endIndex NetworkUtils.invalidToken NetworkUtils.total
         NetworkUtils.requestType NetworkUtils.pageSize orEmpty from_option id snd].
    fold filtered. fold total. rewrite Hv.
    rewrite slice_window by lia. rewrite length_take, length_drop.
    assert (s' + Z.of_nat (Z.to_nat size `min` (length filtered - Z.to_nat s'))
            = Z.min (s' + size) total) as -> by lia.
    split_and!; try done.
    destruct (s' + size <? total) eqn:Hmore.
    + apply Z.ltb_lt in Hmore. rewrite Z.min_l by lia.
      by rewrite (proj2 (Z.ltb_lt _ _)) by lia.
    + apply Z.ltb_ge in Hmore. rewrite Z.min_r by lia. by rewrite Z.ltb_irrefl.
Qed.

End Shape.

Section FilterExtras.
Context {HTTPRequest : Type} (resourceType : HTTPRequest → JS.jsstring).

Lemma elem_of_List_filter {A} (f : A → bool) (l : list A) x :
  x ∈ List.filter f l ↔ f x = true ∧ x ∈ l.
Proof. rewrite !list_elem_of_In, List.filter_In. tauto. Qed.

Lemma sanitize_single value :
  NetworkUtils.sanitizeRequestTypeFilter (Some (NetworkUtils.Single value))
  = if NetworkUtils.isFilterableResourceType value
    then Some (NetworkUtils.Single value) else None.
Proof.
  unfold NetworkUtils.sanitizeRequestTypeFilter.
  cbn [NetworkUtils.asArray List.filter].
  by destruct (NetworkUtils.isFilterableResourceType value).
Qed.

Lemma sanitize_array values :
  NetworkUtils.sanitizeRequestTypeFilter (Some (NetworkUtils.Array values))
  = match List.filter NetworkUtils.isFilterableResourceType values with
    | [] => None
    | _ => Some (NetworkUtils.Array
                   (List.filter NetworkUtils.isFilterableResourceType values))
    end.
Proof.
  unfold NetworkUtils.sanitizeRequestTypeFilter. cbn [NetworkUtils.asArray].
  by destruct (List.filter NetworkUtils.isFilterableResourceType values).
Qed.

(** X1.  Sanitizing a request-type specification twice is sanitizing it
    once. *)
Theorem X1_sanitize_idempotent (raw : option NetworkUtils.RequestType) :
  NetworkUtils.sanitizeRequestTypeFilter (NetworkUtils.sanitizeRequestTypeFilter raw)
  = NetworkUtils.sanitizeRequestTypeFilter raw.
Proof.
  destruct raw as [[value|values]|]; [| |done].
  - rewrite sanitize_single.
    destruct (NetworkUtils.isFilterableResourceType value) eqn:Hallow; [|done].
    by rewrite sanitize_single, Hallow.
  - rewrite sanitize_array.
    destruct (List.filter NetworkUtils.isFilterableResourceType values)
      as [|first rest] eqn:Hfilter; [done|].
    rewrite sanitize_array, <- Hfilter, List_filter_idem. by rewrite Hfilter.
Qed.

(** X2.  The specifications sanitizing leaves alone are the absent one and
    those that ask for at least one value and only for values of the
    allow-list; every other specification is changed. *)
Theorem X2_sanitize_fixed_points (raw : option NetworkUtils.RequestType) :
  NetworkUtils.sanitizeRequestTypeFilter raw = raw
  ↔ raw = None ∨
    (requestedValues raw ≠ [] ∧
     ∀ value, value ∈ requestedValues raw →
       value ∈ NetworkUtils.FILTERABLE_RESOURCE_TYPES).
Proof.
  destruct raw as [[value|values]|]; unfold requestedValues; cbn [from_option].
  - unfold NetworkUtils.sanitizeRequestTypeFilter.
    cbn [NetworkUtils.asArray List.filter].
    destruct (NetworkUtils.isFilterableResourceType value) eqn:Hallow.
    + split; [|done]. intros _. right. split; [done|].
      intros v ->%list_elem_of_singleton. by apply isFilterableResourceType_spec.
    + split; [done|]. intros [?|[_ Hall]]; [done|]. exfalso.
      specialize (Hall value (list_elem_of_here _ _)).
      apply isFilterableResourceType_spec in Hall. congruence.
  - unfold NetworkUtils.sanitizeRequestTypeFilter. cbn [NetworkUtils.asArray].
    destruct (List.filter NetworkUtils.isFilterableResourceType values)
      as [|first rest] eqn:Hfilter.
    + split; [done|]. intros [?|[Hne Hall]]; [done|]. exfalso.
      rewrite List_filter_all in Hfilter; [done|].
      intros v Hv. by apply isFilterableResourceType_spec, Hall.
    + split.
      * intros [= Heq]. right. split; [by rewrite <- Heq|].
        intros v Hv. rewrite <- Heq, <- Hfilter in Hv.
        apply elem_of_List_filter in Hv as [Hallow _].
        by apply isFilterableResourceType_spec.
      * intros [?|[_ Hall]]; [done|]. do 2 f_equal.
        rewrite <- Hfilter. apply List_filter_all.
        intros v Hv. by apply isFilterableResourceType_spec, Hall.
  - split; [by left|done].
Qed.

(** X3.  When sanitizing keeps anything, filtering by the sanitized
    specification and filtering by the raw one keep the same requests. *)
Theorem X3_filter_after_sanitize
    (requests : list HTTPRequest) (raw : option NetworkUtils.RequestType) :
  NetworkUtils.sanitizeRequestTypeFilter raw ≠ None →
  NetworkUtils.filterNetworkRequests resourceType requests
    (NetworkUtils.sanitizeRequestTypeFilter raw)
  = NetworkUtils.filterNetworkRequests resourceType requests raw.
Proof.
  destruct raw as [[value|values]|]; [| |done].
  - unfold NetworkUtils.sanitizeRequestTypeFilter.
    cbn [NetworkUtils.asArray List.filter].
    by destruct (NetworkUtils.isFilterableResourceType value).
  - unfold NetworkUtils.sanitizeRequestTypeFilter. cbn [NetworkUtils.asArray].
    destruct (List.filter NetworkUtils.isFilterableResourceType values)
      as [|first rest] eqn:Hfilter; [done|]. intros _.
    assert (values ≠ []) as Hne by (by intros ->).
    rewrite !filterNetworkRequests_active by done.
    apply list_filter_iff. intros request. cbn [NetworkUtils.asArray].
    rewrite <- Hfilter, elem_of_List_filter, isFilterableResourceType_spec. tauto.
Qed.

(** X4.  A specification that asks only for values outside the allow-list
    keeps no request when it is given to the filter as it is, and keeps every
    request when it is sanitized first. *)
Theorem X4_unrecognized_values_only
    (requests : list HTTPRequest) (raw : option NetworkUtils.RequestType) :
  raw ≠ Some (NetworkUtils.Single []) →
  requestedValues raw ≠ [] →
  (∀ value, value ∈ requestedValues raw →
     value ∉ NetworkUtils.FILTERABLE_RESOURCE_TYPES) →
  NetworkUtils.filterNetworkRequests resourceType requests raw = [] ∧
  NetworkUtils.filterNetworkRequests resourceType requests
    (NetworkUtils.sanitizeRequestTypeFilter raw) = requests.
Proof.
  intros Hstring Hne Hnone. destruct raw as [requestType|]; [|done].
  unfold requestedValues in *. cbn [from_option] in *. split.
  - rewrite filterNetworkRequests_active; [|by destruct requestType as [[|]|]|done].
    induction requests as [|request requests IH]; [done|].
    rewrite filter_cons_False; [done|]. intros [Hallow Hin]. by apply (Hnone _ Hin).
  - assert (NetworkUtils.sanitizeRequestTypeFilter (Some requestType) = None) as ->;
      [|done].
    by apply sanitizeRequestTypeFilter_spec.
Qed.

(** X5.  The filter reads the requested values as a set: two arrays with the
    same members keep the same requests, whatever the order and the
    repetitions, and a single value is the array of that value. *)
Theorem X5_filter_requested_set
    (requests : list HTTPRequest) (values1 values2 : list JS.jsstring)
    (value : JS.jsstring) :
  (∀ v, v ∈ values1 ↔ v ∈ values2) → value ≠ [] →
  NetworkUtils.filterNetworkRequests resourceType requests
    (Some (NetworkUtils.Array values1))
  = NetworkUtils.filterNetworkRequests resourceType requests
      (Some (NetworkUtils.Array values2)) ∧
  NetworkUtils.filterNetworkRequests resourceType requests
    (Some (NetworkUtils.Single value))
  = NetworkUtils.filterNetworkRequests resourceType requests
      (Some (NetworkUtils.Array [value])).
Proof.
  intros Hsame Hvalue. split.
  - destruct values1 as [|v1 values1].
    + destruct values2 as [|v2 values2]; [done|].
      exfalso. by apply (not_elem_of_nil v2), Hsame; left.
    + destruct values2 as [|v2 values2].
      { exfalso. by apply (not_elem_of_nil v1), Hsame; left. }
      rewrite !filterNetworkRequests_active by done.
      apply list_filter_iff. intros request. cbn [NetworkUtils.asArray].
      by rewrite Hsame.
  - rewrite (filterNetworkRequests_active _ _ (NetworkUtils.Single value));
      [|by destruct value|done].
    by rewrite (filterNetworkRequests_active _ _ (NetworkUtils.Array [value])).
Qed.

Lemma filterNetworkRequests_app
    (requests more : list HTTPRequest) (requestType : option NetworkUtils.RequestType) :
  NetworkUtils.filterNetworkRequests resourceType (requests ++ more) requestType
  = NetworkUtils.filterNetworkRequests resourceType requests requestType
    ++ NetworkUtils.filterNetworkRequests resourceType more requestType.
Proof.
  unfold NetworkUtils.filterNetworkRequests.
  destruct requestType as [requestType|]; [|done].
  destruct (negb (NetworkUtils.truthy requestType)); [done|].
  destruct (bool_decide (size (list_to_set (C:=gset JS.jsstring)
              (NetworkUtils.asArray requestType)) = 0%nat)); [done|].
  apply List.filter_app.
Qed.

(** X6.  The filter goes through an appended collection part by part,
    filtering again changes nothing, and the filtered view is never longer
    than the collection. *)
Theorem X6_filter_append_idempotent
    (requests more : list HTTPRequest) (requestType : option NetworkUtils.RequestType) :
  NetworkUtils.filterNetworkRequests resourceType (requests ++ more) requestType
  = NetworkUtils.filterNetworkRequests resourceType requests requestType
    ++ NetworkUtils.filterNetworkRequests resourceType more requestType ∧
  NetworkUtils.filterNetworkRequests resourceType
    (NetworkUtils.filterNetworkRequests resourceType requests requestType) requestType
  = NetworkUtils.filterNetworkRequests resourceType requests requestType ∧
  (length (NetworkUtils.filterNetworkRequests resourceType requests requestType)
   ≤ length requests)%nat.
Proof.
  split; [apply filterNetworkRequests_app|].
  unfold NetworkUtils.filterNetworkRequests.
  destruct requestType as [requestType|]; [|done].
  destruct (negb (NetworkUtils.truthy requestType)); [done|].
  destruct (bool_decide (size (list_to_set (C:=gset JS.jsstring)
              (NetworkUtils.asArray requestType)) = 0%nat)); [done|].
  split; [apply List_filter_idem|apply List.filter_length_le].
Qed.

End FilterExtras.

Section PaginationExtras.
Context {fraction : Type} `{!JS.Fractions fraction}.
Context {HTTPRequest : Type} (resourceType : HTTPRequest → JS.jsstring).

(** The listing resolves a token as the other paginators do and then gates
    the flag on the collection not being empty. *)
Lemma resolveStartIndex_gate pageToken total :
  NetworkUtils.resolveStartIndex pageToken total
  = ((Pagination.resolveStartIndex pageToken total).1,
     (Pagination.resolveStartIndex pageToken total).2 && (total >? 0)).
Proof.
  unfold NetworkUtils.resolveStartIndex, Pagination.resolveStartIndex.
  destruct pageToken as [tok|]; [|done].
  destruct (JS.parseInt tok) as [parsed|]; [|done].
  by destruct ((parsed <? 0) || (parsed >=? total)).
Qed.

Lemma resolveStartIndex_flag pageToken total :
  (Pagination.resolveStartIndex pageToken total).2 = true
  ↔ ∃ token, pageToken = Some token ∧ staleOrMalformed token total.
Proof.
  unfold Pagination.resolveStartIndex, staleOrMalformed.
  destruct pageToken as [tok|].
  2: { split; [done|]. by intros (? & ? & _). }
  destruct (JS.parseInt tok) as [parsed|] eqn:Hparse.
  - destruct ((parsed <? 0) || (parsed >=? total)) eqn:Hbad; cbn [snd].
    + split; [|done]. intros _. exists tok. split; [done|]. right.
      exists parsed. split; [done|]. apply orb_true_iff in Hbad. lia.
    + split; [done|]. intros (t & [= <-] & [Hnone|(p & Hp & Hrange)]).
      * congruence.
      * assert (p = parsed) as -> by congruence.
        apply orb_false_iff in Hbad. lia.
  - cbn [snd]. split; [|done]. intros _. exists tok. split; [done|]. by left.
Qed.

(** X7.  With no request type, the listing returns what the earlier
    [paginateNetworkRequests] returns: the same page, indices and tokens;
    [total] is the length of the collection, and [invalidToken] is the
    earlier flag gated on the collection not being empty. *)
Theorem X7_listing_extends_earlier
    (requests : list HTTPRequest) (pageSize : option (JS.number fraction))
    (pageToken : option JS.jsstring) :
  let earlier :=
    NetworkUtilsV0.paginateNetworkRequests requests
      (Some {| NetworkUtilsV0.pageSize := pageSize;
               NetworkUtilsV0.pageToken := pageToken |}) in
  let listing :=
    NetworkUtils.paginateNetworkRequests resourceType requests
      (Some {| NetworkUtils.pageSize := pageSize;
               NetworkUtils.pageToken := pageToken;
               NetworkUtils.requestType := None |}) in
  NetworkUtils.requests listing = NetworkUtilsV0.requests earlier ∧
  NetworkUtils.startIndex listing = NetworkUtilsV0.startIndex earlier ∧
  NetworkUtils.endIndex listing = NetworkUtilsV0.endIndex earlier ∧
  NetworkUtils.nextPageToken listing = NetworkUtilsV0.nextPageToken earlier ∧
  NetworkUtils.previousPageToken listing = NetworkUtilsV0.previousPageToken earlier ∧
  NetworkUtils.total listing = Z.of_nat (length requests) ∧
  NetworkUtils.invalidToken listing
  = NetworkUtilsV0.invalidToken earlier && (Z.of_nat (length requests) >? 0).
Proof.
  intros earlier listing. subst earlier listing.
  destruct (JS.isUndefined pageSize && JS.isUndefined pageToken) eqn:Hopt.
  - rewrite listing_everything by by destruct pageSize, pageToken.
    by rewrite paginateV0_everything.
  - destruct (Pagination.resolveStartIndex pageToken (Z.of_nat (length requests)))
      as [s inv] eqn:Hres.
    erewrite listing_page;
      [|by destruct pageSize, pageToken
       |cbn; rewrite resolveStartIndex_gate, Hres; done].
    erewrite paginateV0_page; [|done|exact Hres]. done.
Qed.

(** X8.  The earlier [paginateNetworkRequests] is the generic [paginate]
    called with the validated page size: all six fields agree, also when no
    option is given. *)
Theorem X8_earlier_is_paginate_validated
    (requests : list HTTPRequest) (pageSize : option (JS.number fraction))
    (pageToken : option JS.jsstring) :
  let size :=
    NetworkUtilsV0.validatePageSize pageSize (Z.of_nat (length requests)) in
  let earlier :=
    NetworkUtilsV0.paginateNetworkRequests requests
      (Some {| NetworkUtilsV0.pageSize := pageSize;
               NetworkUtilsV0.pageToken := pageToken |}) in
  let generic :=
    Pagination.paginate (fraction:=fraction) requests
      (Some {| Pagination.pageSize := Some (JS.Int size);
               Pagination.pageToken := pageToken |}) in
  NetworkUtilsV0.requests earlier = Pagination.items generic ∧
  NetworkUtilsV0.startIndex earlier = Pagination.startIndex generic ∧
  NetworkUtilsV0.endIndex earlier = Pagination.endIndex generic ∧
  NetworkUtilsV0.nextPageToken earlier = Pagination.nextPageToken generic ∧
  NetworkUtilsV0.previousPageToken earlier = Pagination.previousPageToken generic ∧
  NetworkUtilsV0.invalidToken earlier = Pagination.invalidToken generic.
Proof.
  intros size earlier generic. subst earlier generic.
  destruct (Pagination.resolveStartIndex pageToken (Z.of_nat (length requests)))
    as [s inv] eqn:Hres.
  erewrite paginate_page; [|done|exact Hres].
  destruct (JS.isUndefined pageSize && JS.isUndefined pageToken) eqn:Hopt.
  - apply andb_true_iff in Hopt as [Hps Htok].
    destruct pageSize; [done|]. destruct pageToken; [done|].
    injection Hres as <- <-.
    rewrite paginateV0_everything by done.
    destruct (validatePageSize_effective (fraction:=fraction) None
                (Z.of_nat (length requests))) as (_ & Hv & Hpos); [lia|].
    fold size in Hv. rewrite <- Hv in Hpos.
    assert (Z.of_nat (length requests) ≤ size) as Hsize.
    { rewrite Hv. unfold effectivePageSize.
      destruct (0 <? Z.of_nat (length requests)) eqn:Hlt; lia. }
    cbn [Pagination.items Pagination.nextPageToken Pagination.previousPageToken
         Pagination.startIndex Pagination.endIndex Pagination.invalidToken
         Pagination.pageSize default from_option id JS.plus JS.ToIntegerOrInfinity
         NetworkUtilsV0.requests NetworkUtilsV0.nextPageToken
         NetworkUtilsV0.previousPageToken NetworkUtilsV0.startIndex
         NetworkUtilsV0.endIndex NetworkUtilsV0.invalidToken].
    rewrite slice_window by lia.
    change (Z.to_nat 0) with 0%nat. rewrite drop_0, take_ge by lia.
    rewrite Z.ltb_irrefl. done.
  - erewrite paginateV0_page; [|done|exact Hres]. done.
Qed.

(** The first component of a resolution that accepts an offset. *)
Lemma resolveStartIndex_offset n total :
  0 ≤ n < total →
  NetworkUtils.resolveStartIndex (Some (JS.String n)) total = (n, false).
Proof.
  intros Hn. apply resolveStartIndex_accepted; [|done].
  apply parseInt_String_exact. lia.
Qed.

(** X9.  The tokens a listing result carries are cursors the listing
    accepts, on the same collection and on the collection grown by appended
    requests, under the same filter and with any page size: the next token
    is the rendering of [endIndex], which lies strictly between [startIndex]
    and [total]; the previous token is the rendering of an offset below
    [startIndex]; a call with either starts at that offset and does not set
    [invalidToken]. *)
Theorem X9_issued_tokens_are_accepted
    (requests more : list HTTPRequest)
    (pageSize pageSize' : option (JS.number fraction))
    (pageToken : option JS.jsstring) (requestType : option NetworkUtils.RequestType) :
  let listing :=
    NetworkUtils.paginateNetworkRequests resourceType requests
      (Some {| NetworkUtils.pageSize := pageSize;
               NetworkUtils.pageToken := pageToken;
               NetworkUtils.requestType := requestType |}) in
  let again token :=
    NetworkUtils.paginateNetworkRequests resourceType (requests ++ more)
      (Some {| NetworkUtils.pageSize := pageSize';
               NetworkUtils.pageToken := Some token;
               NetworkUtils.requestType := requestType |}) in
  (∀ next, NetworkUtils.nextPageToken listing = Some next →
     next = JS.String (NetworkUtils.endIndex listing) ∧
     NetworkUtils.startIndex listing < NetworkUtils.endIndex listing ∧
     NetworkUtils.endIndex listing < NetworkUtils.total listing ∧
     NetworkUtils.startIndex (again next) = NetworkUtils.endIndex listing ∧
     NetworkUtils.invalidToken (again next) = false) ∧
  (∀ previous, NetworkUtils.previousPageToken listing = Some previous →
     ∃ offset, previous = JS.String offset ∧
       0 ≤ offset < NetworkUtils.startIndex listing ∧
       NetworkUtils.startIndex (again previous) = offset ∧
       NetworkUtils.invalidToken (again previous) = false).
Proof.
  intros listing again.
  destruct (listing_shape resourceType requests pageSize pageToken requestType)
    as (Hstart & _ & Hend & Hnext & Hprev & _ & Htotal).
  fold listing in Hstart, Hend, Hnext, Hprev, Htotal.
  set (filtered := NetworkUtils.filterNetworkRequests resourceType requests requestType)
    in *.
  set (total := Z.of_nat (length filtered)) in *.
  set (size := effectivePageSize pageSize total) in *.
  set (s := (NetworkUtils.resolveStartIndex pageToken total).1) in *.
  destruct (validatePageSize_effective pageSize total) as (_ & _ & Hpos); [lia|].
  fold size in Hpos.
  pose proof (resolveStartIndex_inside pageToken total ltac:(lia)) as Hs.
  cbn zeta in Hs. fold s in Hs.
  assert (∀ offset, 0 ≤ offset < total →
            NetworkUtils.startIndex (again (JS.String offset)) = offset ∧
            NetworkUtils.invalidToken (again (JS.String offset)) = false) as Hagain.
  { intros offset Hoffset. subst again. cbn beta.
    destruct (listing_shape resourceType (requests ++ more) pageSize'
                (Some (JS.String offset)) requestType)
      as (-> & _ & _ & _ & _ & -> & _).
    rewrite filterNetworkRequests_app, length_app, resolveStartIndex_offset; [done|].
    fold filtered. lia. }
  rewrite Hstart, Hend, Htotal. split.
  - intros next. rewrite Hnext.
    destruct (s + size <? total) eqn:Hmore; [|done]. intros [= <-].
    apply Z.ltb_lt in Hmore. rewrite Z.min_l by lia.
    split_and!; [done|lia|lia|apply Hagain; lia..].
  - intros previous. rewrite Hprev.
    destruct (s >? 0) eqn:Hpos'; [|done]. intros [= <-].
    exists (Z.max (s - size) 0). split_and!; [done|lia|lia|apply Hagain; lia..].
Qed.

(** X10.  From a page with a next token, going to the next page and then
    back along its previous token returns to the same page: the next page's
    previous token is the rendering of this page's [startIndex], and the
    call with it gives the same requests, indices and next token. *)
Theorem X10_next_then_previous
    (requests : list HTTPRequest) (pageSize : option (JS.number fraction))
    (pageToken : option JS.jsstring) (requestType : option NetworkUtils.RequestType)
    (next : JS.jsstring) :
  let call token :=
    NetworkUtils.paginateNetworkRequests resourceType requests
      (Some {| NetworkUtils.pageSize := pageSize;
               NetworkUtils.pageToken := token;
               NetworkUtils.requestType := requestType |}) in
  NetworkUtils.nextPageToken (call pageToken) = Some next →
  let back := NetworkUtils.previousPageToken (call (Some next)) in
  back = Some (JS.String (NetworkUtils.startIndex (call pageToken))) ∧
  NetworkUtils.requests (call back) = NetworkUtils.requests (call pageToken) ∧
  NetworkUtils.startIndex (call back) = NetworkUtils.startIndex (call pageToken) ∧
  NetworkUtils.endIndex (call back) = NetworkUtils.endIndex (call pageToken) ∧
  NetworkUtils.nextPageToken (call back) = NetworkUtils.nextPageToken (call pageToken) ∧
  NetworkUtils.invalidToken (call back) = false.
Proof.
  intros call Hnext back.
  set (filtered := NetworkUtils.filterNetworkRequests resourceType requests requestType).
  set (total := Z.of_nat (length filtered)).
  set (size := effectivePageSize pageSize total).
  pose (start token := (NetworkUtils.resolveStartIndex token total).1).
  assert (∀ token,
    NetworkUtils.startIndex (call token) = start token ∧
    NetworkUtils.requests (call token)
    = take (Z.to_nat size) (drop (Z.to_nat (start token)) filtered) ∧
    NetworkUtils.endIndex (call token) = Z.min (start token + size) total ∧
    NetworkUtils.nextPageToken (call token)
    = (if start token + size <? total
       then Some (JS.String (start token + size)) else None) ∧
    NetworkUtils.previousPageToken (call token)
    = (if start token >? 0
       then Some (JS.String (Z.max (start token - size) 0)) else None) ∧
    NetworkUtils.invalidToken (call token)
    = (NetworkUtils.resolveStartIndex token total).2) as Hshape.
  { intros token.
    destruct (listing_shape resourceType requests pageSize token requestType)
      as (? & ? & ? & ? & ? & ? & _). done. }
  assert (∀ offset, 0 ≤ offset < total →
            start (Some (JS.String offset)) = offset ∧
            (NetworkUtils.resolveStartIndex (Some (JS.String offset)) total).2 = false)
    as Hoffset.
  { intros offset Hrange. unfold start. by rewrite resolveStartIndex_offset. }
  destruct (validatePageSize_effective pageSize total) as (_ & _ & Hpos); [lia|].
  fold size in Hpos.
  pose proof (resolveStartIndex_inside pageToken total ltac:(lia)) as Hs.
  cbn zeta in Hs. fold (start pageToken) in Hs.
  destruct (Hshape pageToken) as (Hstart & Hreq & Hend & Hnext' & _).
  set (s := start pageToken) in *.
  rewrite Hnext' in Hnext.
  destruct (s + size <? total) eqn:Hmore; [|done]. injection Hnext as <-.
  apply Z.ltb_lt in Hmore.
  assert (back = Some (JS.String s)) as Hback.
  { subst back. destruct (Hshape (Some (JS.String (s + size)))) as (_ & _ & _ & _ & -> & _).
    destruct (Hoffset (s + size)) as [-> _]; [lia|].
    rewrite (proj2 (Z.gtb_gt _ _)) by lia. do 2 f_equal. lia. }
  rewrite Hback, Hstart, Hreq, Hend, Hnext'.
  destruct (Hshape (Some (JS.String s))) as (-> & -> & -> & -> & _ & ->).
  destruct (Hoffset s) as [-> ->]; [lia|].
  by rewrite (proj2 (Z.ltb_lt _ _) Hmore).
Qed.

(** A token that is not flagged on a collection with data resolves the same
    way on any longer collection. *)
Lemma resolveStartIndex_grow pageToken total total' :
  0 < total ≤ total' →
  (NetworkUtils.resolveStartIndex pageToken total).2 = false →
  NetworkUtils.resolveStartIndex pageToken total'
  = NetworkUtils.resolveStartIndex pageToken total.
Proof.
  intros Htotal. unfold NetworkUtils.resolveStartIndex.
  destruct pageToken as [tok|]; [|done].
  destruct (JS.parseInt tok) as [parsed|].
  - destruct ((parsed <? 0) || (parsed >=? total)) eqn:Hbad; cbn [snd].
    + intros Hflag. rewrite Z.gtb_ltb in Hflag. apply Z.ltb_ge in Hflag. lia.
    + intros _. apply orb_false_iff in Hbad as [Hneg Hbig].
      assert ((parsed <? 0) || (parsed >=? total') = false) as ->; [|done].
      apply orb_false_iff. lia.
  - cbn [snd]. intros Hflag. rewrite Z.gtb_ltb in Hflag. apply Z.ltb_ge in Hflag. lia.
Qed.

(** A page size that leaves something after the page does not depend on how
    much longer the collection is. *)
Lemma effectivePageSize_grow (pageSize : option (JS.number fraction)) total total' s :
  0 ≤ s → s + effectivePageSize pageSize total < total → total ≤ total' →
  effectivePageSize pageSize total' = effectivePageSize pageSize total.
Proof.
  unfold effectivePageSize, isPositiveInteger, integerValue.
  destruct pageSize as [[z|q| | |]|]; try done.
  - destruct (0 <? z) eqn:Hz; [|done]. lia.
  - destruct (0 <? total) eqn:Hlt; lia.
Qed.

(** X11.  A page that has a next token and whose token was not flagged is
    not affected by requests appended to the collection: the listing of the
    grown collection with the same options gives the same requests, indices
    and tokens. *)
Theorem X11_page_stable_under_append
    (requests more : list HTTPRequest) (pageSize : option (JS.number fraction))
    (pageToken : option JS.jsstring) (requestType : option NetworkUtils.RequestType) :
  let options :=
    Some {| NetworkUtils.pageSize := pageSize;
            NetworkUtils.pageToken := pageToken;
            NetworkUtils.requestType := requestType |} in
  let listing := NetworkUtils.paginateNetworkRequests resourceType requests options in
  let grown :=
    NetworkUtils.paginateNetworkRequests resourceType (requests ++ more) options in
  NetworkUtils.invalidToken listing = false →
  is_Some (NetworkUtils.nextPageToken listing) →
  NetworkUtils.requests grown = NetworkUtils.requests listing ∧
  NetworkUtils.startIndex grown = NetworkUtils.startIndex listing ∧
  NetworkUtils.endIndex grown = NetworkUtils.endIndex listing ∧
  NetworkUtils.nextPageToken grown = NetworkUtils.nextPageToken listing ∧
  NetworkUtils.previousPageToken grown = NetworkUtils.previousPageToken listing ∧
  NetworkUtils.invalidToken grown = false.
Proof.
  intros options listing grown.
  destruct (listing_shape resourceType requests pageSize pageToken requestType)
    as (Hstart & Hreq & Hend & Hnext & Hprev & Hflag & _).
  destruct (listing_shape resourceType (requests ++ more) pageSize pageToken requestType)
    as (Hstart' & Hreq' & Hend' & Hnext' & Hprev' & Hflag' & _).
  fold options in Hstart, Hreq, Hend, Hnext, Hprev, Hflag,
                  Hstart', Hreq', Hend', Hnext', Hprev', Hflag'.
  fold listing in Hstart, Hreq, Hend, Hnext, Hprev, Hflag.
  fold grown in Hstart', Hreq', Hend', Hnext', Hprev', Hflag'.
  rewrite filterNetworkRequests_app, length_app, Nat2Z.inj_add
    in Hstart', Hreq', Hend', Hnext', Hprev', Hflag'.
  set (filtered := NetworkUtils.filterNetworkRequests resourceType requests requestType)
    in *.
  set (extra := NetworkUtils.filterNetworkRequests resourceType more requestType) in *.
  set (total := Z.of_nat (length filtered)) in *.
  pose proof (resolveStartIndex_inside pageToken total ltac:(lia)) as Hs.
  cbn zeta in Hs.
  intros Hunflagged Hsome. rewrite Hflag in Hunflagged. rewrite Hnext in Hsome.
  destruct ((NetworkUtils.resolveStartIndex pageToken total).1
            + effectivePageSize pageSize total <? total) eqn:Hmore;
    [|by destruct Hsome].
  apply Z.ltb_lt in Hmore.
  destruct (validatePageSize_effective pageSize total) as (_ & _ & Hpos); [lia|].
  rewrite (resolveStartIndex_grow pageToken total (total + Z.of_nat (length extra)))
    in Hstart', Hreq', Hend', Hnext', Hprev', Hflag' by (done || lia).
  rewrite (effectivePageSize_grow pageSize total (total + Z.of_nat (length extra))
             ((NetworkUtils.resolveStartIndex pageToken total).1))
    in Hreq', Hend', Hnext', Hprev' by lia.
  rewrite Hstart', Hreq', Hend', Hnext', Hprev', Hflag',
          Hstart, Hreq, Hend, Hnext, Hprev.
  rewrite (proj2 (Z.ltb_lt _ _)) by lia.
  rewrite !Z.min_l by lia.
  split_and!; try done.
  rewrite drop_app_le by (subst total; lia).
  apply take_app_le. rewrite length_drop. subst total. lia.
Qed.

(** X12.  A listing page is never empty when the filtered collection has
    data, never longer than the effective page size, exactly that long when
    a next token is returned, and it ends at [total] when none is. *)
Theorem X12_page_length
    (requests : list HTTPRequest) (pageSize : option (JS.number fraction))
    (pageToken : option JS.jsstring) (requestType : option NetworkUtils.RequestType) :
  let listing :=
    NetworkUtils.paginateNetworkRequests resourceType requests
      (Some {| NetworkUtils.pageSize := pageSize;
               NetworkUtils.pageToken := pageToken;
               NetworkUtils.requestType := requestType |}) in
  let size := effectivePageSize pageSize (NetworkUtils.total listing) in
  (0 < NetworkUtils.total listing → NetworkUtils.requests listing ≠ []) ∧
  Z.of_nat (length (NetworkUtils.requests listing)) ≤ size ∧
  (is_Some (NetworkUtils.nextPageToken listing) →
   Z.of_nat (length (NetworkUtils.requests listing)) = size) ∧
  (NetworkUtils.nextPageToken listing = None →
   NetworkUtils.endIndex listing = NetworkUtils.total listing).
Proof.
  intros listing size.
  destruct (listing_shape resourceType requests pageSize pageToken requestType)
    as (Hstart & Hreq & Hend & Hnext & _ & _ & Htotal).
  fold listing in Hstart, Hreq, Hend, Hnext, Htotal. subst size. rewrite Htotal.
  set (filtered := NetworkUtils.filterNetworkRequests resourceType requests requestType)
    in *.
  set (total := Z.of_nat (length filtered)) in *.
  pose proof (resolveStartIndex_inside pageToken total ltac:(lia)) as Hs.
  cbn zeta in Hs.
  destruct (validatePageSize_effective pageSize total) as (_ & _ & Hpos); [lia|].
  assert (Z.of_nat (length (NetworkUtils.requests listing))
          = Z.min (effectivePageSize pageSize total)
              (total - (NetworkUtils.resolveStartIndex pageToken total).1)) as Hlen.
  { rewrite Hreq, length_take, length_drop. subst total. lia. }
  rewrite Hnext, Hend. split_and!.
  - intros Hdata Hnil. rewrite Hnil in Hlen. cbn in Hlen. lia.
  - lia.
  - destruct (_ <? total) eqn:Hmore; [|by intros [? ?]].
    apply Z.ltb_lt in Hmore. lia.
  - destruct (_ <? total) eqn:Hmore; [done|].
    apply Z.ltb_ge in Hmore. lia.
Qed.

(** X13.  With no page size the listing returns everything from the start
    offset to the end of the filtered collection, whatever the token, and no
    next token. *)
Theorem X13_no_size_returns_the_rest
    (requests : list HTTPRequest)
    (pageToken : option JS.jsstring) (requestType : option NetworkUtils.RequestType) :
  let filtered := NetworkUtils.filterNetworkRequests resourceType requests requestType in
  let listing :=
    NetworkUtils.paginateNetworkRequests (fraction:=fraction) resourceType requests
      (Some {| NetworkUtils.pageSize := None;
               NetworkUtils.pageToken := pageToken;
               NetworkUtils.requestType := requestType |}) in
  NetworkUtils.requests listing
  = drop (Z.to_nat (NetworkUtils.startIndex listing)) filtered ∧
  NetworkUtils.nextPageToken listing = None ∧
  NetworkUtils.endIndex listing = Z.of_nat (length filtered).
Proof.
  intros filtered listing.
  destruct (listing_shape (fraction:=fraction) resourceType requests None
              pageToken requestType)
    as (Hstart & Hreq & Hend & Hnext & _ & _ & _).
  fold listing in Hstart, Hreq, Hend, Hnext. fold filtered in Hstart, Hreq, Hend, Hnext.
  set (total := Z.of_nat (length filtered)) in *.
  pose proof (resolveStartIndex_inside pageToken total ltac:(lia)) as Hs.
  cbn zeta in Hs.
  assert (total ≤ effectivePageSize (fraction:=fraction) None total) as Hsize.
  { unfold effectivePageSize. destruct (0 <? total) eqn:Hlt; lia. }
  rewrite Hstart, Hreq, Hend, Hnext. split_and!.
  - apply take_ge. rewrite length_drop. subst total. lia.
  - by rewrite (proj2 (Z.ltb_ge _ _)) by lia.
  - lia.
Qed.

(** X14.  [invalidToken] is set exactly when a page token was given and it
    does not parse or parses to a negative value or to a value [>= total];
    in the listing, only when in addition the filtered collection has data.
    It is never set without a token. *)
Theorem X14_invalid_token_exactly
    (requests : list HTTPRequest) (pageSize : option (JS.number fraction))
    (pageToken : option JS.jsstring) (requestType : option NetworkUtils.RequestType) :
  let filtered := NetworkUtils.filterNetworkRequests resourceType requests requestType in
  let total := Z.of_nat (length filtered) in
  let generic :=
    Pagination.paginate filtered
      (Some {| Pagination.pageSize := pageSize; Pagination.pageToken := pageToken |}) in
  let earlier :=
    NetworkUtilsV0.paginateNetworkRequests filtered
      (Some {| NetworkUtilsV0.pageSize := pageSize;
               NetworkUtilsV0.pageToken := pageToken |}) in
  let listing :=
    NetworkUtils.paginateNetworkRequests resourceType requests
      (Some {| NetworkUtils.pageSize := pageSize;
               NetworkUtils.pageToken := pageToken;
               NetworkUtils.requestType := requestType |}) in
  (Pagination.invalidToken generic = true
   ↔ ∃ token, pageToken = Some token ∧ staleOrMalformed token total) ∧
  (NetworkUtilsV0.invalidToken earlier = true
   ↔ ∃ token, pageToken = Some token ∧ staleOrMalformed token total) ∧
  (NetworkUtils.invalidToken listing = true
   ↔ (∃ token, pageToken = Some token ∧ staleOrMalformed token total) ∧ 0 < total).
Proof.
  intros filtered total generic earlier listing.
  assert (Pagination.invalidToken generic
          = (Pagination.resolveStartIndex pageToken total).2) as Hgeneric.
  { subst generic.
    destruct (JS.isUndefined pageSize && JS.isUndefined pageToken) eqn:Hopt.
    - rewrite paginate_everything by done.
      apply andb_true_iff in Hopt as [_ Htok]. by destruct pageToken.
    - destruct (Pagination.resolveStartIndex pageToken total) as [s inv] eqn:Hres.
      erewrite paginate_page; [|done|exact Hres]. done. }
  assert (NetworkUtilsV0.invalidToken earlier
          = (Pagination.resolveStartIndex pageToken total).2) as Hearlier.
  { subst earlier.
    destruct (JS.isUndefined pageSize && JS.isUndefined pageToken) eqn:Hopt.
    - rewrite paginateV0_everything by done.
      apply andb_true_iff in Hopt as [_ Htok]. by destruct pageToken.
    - destruct (Pagination.resolveStartIndex pageToken total) as [s inv] eqn:Hres.
      erewrite paginateV0_page; [|done|exact Hres]. done. }
  destruct (listing_shape resourceType requests pageSize pageToken requestType)
    as (_ & _ & _ & _ & _ & Hlisting & _).
  fold listing filtered total in Hlisting.
  rewrite Hgeneric, Hearlier, Hlisting, resolveStartIndex_gate. cbn [snd].
  rewrite andb_true_iff, resolveStartIndex_flag, Z.gtb_ltb, Z.ltb_lt. done.
Qed.

(** A token with a sign: [parseInt] reads ["+n"] as [n] and ["-n"] as [-n]. *)
Lemma parseInt_signed n :
  0 ≤ n →
  JS.parseInt (43%N :: JS.String n) = Some n ∧
  JS.parseInt (45%N :: JS.String n) = Some (- n).
Proof.
  intros Hn. destruct (String_digits n Hn) as (Hds & Hne & Hval).
  unfold JS.parseInt. cbn [JS.trimStart].
  change (JS.isWhiteSpace 43) with false. change (JS.isWhiteSpace 45) with false.
  cbn [N.eqb Pos.eqb]. change (43 =? 45)%N with false. change (43 =? 43)%N with true.
  change (45 =? 45)%N with true.
  pose proof (digitPrefix_app (JS.String n) [] Hds I) as Hprefix.
  rewrite app_nil_r in Hprefix. rewrite Hprefix.
  destruct (JS.String n) as [|c ds]; [done|]. rewrite Hval. split; f_equal; lia.
Qed.

(** X15.  A page token with a sign in front of the digits of an offset
    [n > 0]: with a minus sign it is rejected by the listing (first page,
    flag set when there is data); with a plus sign it is accepted like the
    digits alone whenever [n < total]. *)
Theorem X15_signed_tokens
    (requests : list HTTPRequest) (pageSize : option (JS.number fraction))
    (requestType : option NetworkUtils.RequestType) (n : Z) :
  let filtered := NetworkUtils.filterNetworkRequests resourceType requests requestType in
  let total := Z.of_nat (length filtered) in
  let call token :=
    NetworkUtils.paginateNetworkRequests resourceType requests
      (Some {| NetworkUtils.pageSize := pageSize;
               NetworkUtils.pageToken := Some token;
               NetworkUtils.requestType := requestType |}) in
  0 < n →
  (NetworkUtils.startIndex (call (45%N :: JS.String n)) = 0 ∧
   NetworkUtils.invalidToken (call (45%N :: JS.String n)) = (total >? 0)) ∧
  (n < total →
   NetworkUtils.startIndex (call (43%N :: JS.String n)) = n ∧
   NetworkUtils.invalidToken (call (43%N :: JS.String n)) = false).
Proof.
  intros filtered total call Hn. subst call. cbn beta.
  destruct (parseInt_signed n) as [Hplus Hminus]; [lia|].
  split.
  - destruct (listing_shape resourceType requests pageSize
                (@Some JS.jsstring (45%N :: JS.String n)) requestType)
      as (Hstart & _ & _ & _ & _ & Hflag & _).
    fold filtered total in Hstart, Hflag.
    destruct (resolveStartIndex_rejected (45%N :: JS.String n) total) as [_ Hrejected].
    { right. exists (- n). split; [done|]. lia. }
    rewrite Hrejected in Hstart, Hflag. split; [exact Hstart|exact Hflag].
  - intros Hrange.
    destruct (listing_shape resourceType requests pageSize
                (@Some JS.jsstring (43%N :: JS.String n)) requestType)
      as (Hstart & _ & _ & _ & _ & Hflag & _).
    fold filtered total in Hstart, Hflag.
    destruct (resolveStartIndex_accepted (43%N :: JS.String n) total n)
      as [_ Haccepted]; [done|lia|].
    rewrite Haccepted in Hstart, Hflag. split; [exact Hstart|exact Hflag].
Qed.

(** With the page size 0 the generic paginator returns an empty page and a
    next token that stays at the start. *)
Lemma genericCall_zero (items : list HTTPRequest) pageToken :
  items ≠ [] → pageToken = None ∨ pageToken = Some (JS.String 0) →
  genericCall (fraction:=fraction) items 0 pageToken = ([], Some (JS.String 0)).
Proof.
  intros Hne Htoken. unfold genericCall.
  assert (0 < Z.of_nat (length items)) as Hlen by (destruct items; [done|cbn; lia]).
  assert (Pagination.resolveStartIndex pageToken (Z.of_nat (length items)) = (0, false))
    as Hres.
  { destruct Htoken as [->| ->]; [done|].
    apply resolveStartIndex_accepted; [|lia]. by apply parseInt_String_exact. }
  erewrite paginate_page; [|done|exact Hres].
  cbn [Pagination.items Pagination.nextPageToken Pagination.pageSize default
       from_option id JS.plus JS.ToIntegerOrInfinity].
  assert (JS.slice items (JS.Finite 0) (JS.Finite (0 + 0)) = []) as ->.
  { rewrite slice_from by lia. cbn [JS.relativeIndex].
    change (0 + 0 <? 0) with false. cbn match. rewrite Z.min_l by lia. done. }
  cbn [length]. by rewrite (proj2 (Z.ltb_lt _ _)) by lia.
Qed.

(** X16.  With the page size 0 the generic [paginate] makes no progress on a
    collection that is not empty: every call returns an empty page and the
    next token ["0"], so following the next tokens does not come to an end,
    however many calls are made. *)
Theorem X16_paginate_size_zero_never_ends (items : list HTTPRequest) (calls : nat) :
  items ≠ [] →
  genericCall (fraction:=fraction) items 0 None = ([], Some (JS.String 0)) ∧
  genericCall (fraction:=fraction) items 0 (Some (JS.String 0))
  = ([], Some (JS.String 0)) ∧
  followNextPageToken (genericCall (fraction:=fraction) items 0) calls None = None.
Proof.
  intros Hne.
  split; [apply genericCall_zero; [done|by left]|].
  split; [apply genericCall_zero; [done|by right]|].
  assert (∀ pageToken, pageToken = None ∨ pageToken = Some (JS.String 0) →
            followNextPageToken (genericCall (fraction:=fraction) items 0)
              calls pageToken = None) as Hloop.
  { induction calls as [|calls IH]; intros pageToken Htoken; [done|].
    cbn [followNextPageToken]. rewrite genericCall_zero by done.
    rewrite IH; [done|by right]. }
  apply Hloop. by left.
Qed.

(** X17.  For a positive integral page size the generic [paginate] and the
    earlier [paginateNetworkRequests] return the same result: clamping the
    size to the length of the collection changes no field. *)
Theorem X17_clamping_is_not_observable
    (requests : list HTTPRequest) (pageSize : Z) (pageToken : option JS.jsstring) :
  0 < pageSize →
  let generic :=
    Pagination.paginate (fraction:=fraction) requests
      (Some {| Pagination.pageSize := Some (JS.Int pageSize);
               Pagination.pageToken := pageToken |}) in
  let earlier :=
    NetworkUtilsV0.paginateNetworkRequests (fraction:=fraction) requests
      (Some {| NetworkUtilsV0.pageSize := Some (JS.Int pageSize);
               NetworkUtilsV0.pageToken := pageToken |}) in
  Pagination.items generic = NetworkUtilsV0.requests earlier ∧
  Pagination.startIndex generic = NetworkUtilsV0.startIndex earlier ∧
  Pagination.endIndex generic = NetworkUtilsV0.endIndex earlier ∧
  Pagination.nextPageToken generic = NetworkUtilsV0.nextPageToken earlier ∧
  Pagination.previousPageToken generic = NetworkUtilsV0.previousPageToken earlier ∧
  Pagination.invalidToken generic = NetworkUtilsV0.invalidToken earlier.
Proof.
  intros Hsize generic earlier. subst generic earlier.
  set (total := Z.of_nat (length requests)).
  destruct (Pagination.resolveStartIndex pageToken total) as [s inv] eqn:Hres.
  pose proof (resolveStartIndex_inside pageToken total ltac:(lia)) as Hs.
  cbn zeta in Hs. rewrite resolveStartIndex_fst, Hres in Hs. cbn [fst] in Hs.
  erewrite paginate_page; [|done|exact Hres].
  erewrite paginateV0_page; [|done|exact Hres].
  cbn [Pagination.items Pagination.nextPageToken Pagination.previousPageToken
       Pagination.startIndex Pagination.endIndex Pagination.invalidToken
       Pagination.pageSize default from_option id JS.plus JS.minus JS.Math_max
       JS.StringOfNumber JS.ToIntegerOrInfinity
       NetworkUtilsV0.requests NetworkUtilsV0.nextPageToken
       NetworkUtilsV0.previousPageToken NetworkUtilsV0.startIndex
       NetworkUtilsV0.endIndex NetworkUtilsV0.invalidToken NetworkUtilsV0.pageSize].
  fold total.
  destruct (validatePageSize_effective (fraction:=fraction) (Some (JS.Int pageSize)) total)
    as (_ & -> & Hpos); [lia|].
  set (size := effectivePageSize (fraction:=fraction) (Some (JS.Int pageSize)) total) in *.
  assert (size = Z.min pageSize (Z.max total 1)) as Hclamp.
  { subst size. unfold effectivePageSize, isPositiveInteger, integerValue.
    by rewrite (proj2 (Z.ltb_lt _ _) Hsize). }
  assert (JS.slice requests (JS.Finite s) (JS.Finite (s + pageSize))
          = JS.slice requests (JS.Finite s) (JS.Finite (s + size))) as ->.
  { rewrite !slice_window by lia.
    destruct (decide (pageSize ≤ Z.max total 1)).
    - by rewrite Hclamp, Z.min_l.
    - rewrite !take_ge; [done|rewrite length_drop; lia..]. }
  split_and!; try done.
  destruct (s >? 0) eqn:Hgt; [|done]. apply Z.gtb_gt in Hgt.
  do 2 f_equal. lia.
Qed.

End PaginationExtras.

(** ** The further properties at concrete inputs *)

(** X3, at the mixed requests and the array ["bogus", "image"]. *)
Lemma X3_filter_after_sanitize_witness :
  let raw := Some (NetworkUtils.Array [JS.lit "bogus"; JS.lit "image"]) in
  NetworkUtils.sanitizeRequestTypeFilter raw ≠ None ∧
  NetworkUtils.filterNetworkRequests mock_resourceType mixedRequests
    (NetworkUtils.sanitizeRequestTypeFilter raw)
  = NetworkUtils.filterNetworkRequests mock_resourceType mixedRequests raw.
Proof.
  intros raw. assert (NetworkUtils.sanitizeRequestTypeFilter raw ≠ None) as Hkept.
  { by vm_compute. }
  split; [exact Hkept|].
  exact (X3_filter_after_sanitize mock_resourceType mixedRequests raw Hkept).
Defined.

(** X4, at the mixed requests and the array ["bogus"]. *)
Lemma X4_unrecognized_values_witness :
  let raw := Some (NetworkUtils.Array [JS.lit "bogus"]) in
  NetworkUtils.filterNetworkRequests mock_resourceType mixedRequests raw = [] ∧
  NetworkUtils.filterNetworkRequests mock_resourceType mixedRequests
    (NetworkUtils.sanitizeRequestTypeFilter raw) = mixedRequests.
Proof.
  intros raw.
  apply (X4_unrecognized_values_only mock_resourceType mixedRequests raw).
  - done.
  - done.
  - intros value ->%list_elem_of_singleton Hallow.
    apply isFilterableResourceType_spec in Hallow. by vm_compute in Hallow.
Defined.

(** X5, at the mixed requests, with a repeated and reordered array. *)
Lemma X5_filter_requested_set_witness :
  NetworkUtils.filterNetworkRequests mock_resourceType mixedRequests
    (Some (NetworkUtils.Array [JS.lit "xhr"; JS.lit "image"; JS.lit "xhr"]))
  = NetworkUtils.filterNetworkRequests mock_resourceType mixedRequests
      (Some (NetworkUtils.Array [JS.lit "image"; JS.lit "xhr"])).
Proof.
  apply (X5_filter_requested_set mock_resourceType mixedRequests
           [JS.lit "xhr"; JS.lit "image"; JS.lit "xhr"]
           [JS.lit "image"; JS.lit "xhr"] (JS.lit "image")).
  - intros v. rewrite !elem_of_cons, !elem_of_nil. tauto.
  - done.
Defined.

(** X9, at 25 requests, page size 10 and the token ["10"], with 5 more
    requests appended before the next call. *)
Lemma X9_issued_tokens_witness :
  let listing :=
    NetworkUtils.paginateNetworkRequests (fraction:=Empty_set) mock_resourceType
      (numberedRequests 25)
      (Some {| NetworkUtils.pageSize := Some (JS.Int 10);
               NetworkUtils.pageToken := Some (JS.lit "10");
               NetworkUtils.requestType := None |}) in
  NetworkUtils.nextPageToken listing = Some (JS.lit "20") ∧
  NetworkUtils.startIndex
    (NetworkUtils.paginateNetworkRequests (fraction:=Empty_set) mock_resourceType
       (numberedRequests 25 ++ numberedRequests 5)
       (Some {| NetworkUtils.pageSize := Some (JS.Int 3);
                NetworkUtils.pageToken := Some (JS.lit "20");
                NetworkUtils.requestType := None |}))
  = NetworkUtils.endIndex listing.
Proof.
  intros listing. assert (NetworkUtils.nextPageToken listing = Some (JS.lit "20"))
    as Hnext by (by vm_compute).
  split; [exact Hnext|].
  destruct (X9_issued_tokens_are_accepted (fraction:=Empty_set) mock_resourceType
              (numberedRequests 25) (numberedRequests 5) (Some (JS.Int 10))
              (Some (JS.Int 3)) (Some (JS.lit "10")) None) as [Hforward _].
  destruct (Hforward (JS.lit "20") Hnext) as (_ & _ & _ & Hstart & _).
  exact Hstart.
Defined.

(** X10, at 25 requests, page size 10 and the token ["10"]. *)
Lemma X10_next_then_previous_witness :
  let call token :=
    NetworkUtils.paginateNetworkRequests (fraction:=Empty_set) mock_resourceType
      (numberedRequests 25)
      (Some {| NetworkUtils.pageSize := Some (JS.Int 10);
               NetworkUtils.pageToken := token;
               NetworkUtils.requestType := None |}) in
  NetworkUtils.nextPageToken (call (Some (JS.lit "10"))) = Some (JS.lit "20") ∧
  NetworkUtils.previousPageToken (call (Some (JS.lit "20")))
  = Some (JS.String (NetworkUtils.startIndex (call (Some (JS.lit "10"))))).
Proof.
  intros call. assert (NetworkUtils.nextPageToken (call (Some (JS.lit "10")))
                       = Some (JS.lit "20")) as Hnext by (by vm_compute).
  split; [exact Hnext|].
  apply (X10_next_then_previous (fraction:=Empty_set) mock_resourceType
           (numberedRequests 25) (Some (JS.Int 10)) (Some (JS.lit "10")) None
           (JS.lit "20") Hnext).
Defined.

(** X11, at 25 requests, page size 10 and the token ["10"], with 5 more
    requests appended. *)
Lemma X11_page_stable_witness :
  let options :=
    Some {| NetworkUtils.pageSize := Some (JS.Int (fraction:=Empty_set) 10);
            NetworkUtils.pageToken := Some (JS.lit "10");
            NetworkUtils.requestType := None |} in
  let listing :=
    NetworkUtils.paginateNetworkRequests mock_resourceType (numberedRequests 25)
      options in
  let grown :=
    NetworkUtils.paginateNetworkRequests mock_resourceType
      (numberedRequests 25 ++ numberedRequests 5) options in
  NetworkUtils.invalidToken listing = false ∧
  is_Some (NetworkUtils.nextPageToken listing) ∧
  NetworkUtils.requests grown = NetworkUtils.requests listing.
Proof.
  intros options listing grown.
  assert (NetworkUtils.invalidToken listing = false) as Hflag by (by vm_compute).
  assert (is_Some (NetworkUtils.nextPageToken listing)) as Hnext.
  { exists (JS.lit "20"). by vm_compute. }
  split; [exact Hflag|]. split; [exact Hnext|].
  apply (X11_page_stable_under_append (fraction:=Empty_set) mock_resourceType
           (numberedRequests 25) (numberedRequests 5) (Some (JS.Int 10))
           (Some (JS.lit "10")) None Hflag Hnext).
Defined.

(** X12, at the mixed requests filtered by ["image"], page size 5. *)
Lemma X12_page_length_witness :
  let listing :=
    NetworkUtils.paginateNetworkRequests (fraction:=Empty_set) mock_resourceType
      mixedRequests
      (Some {| NetworkUtils.pageSize := Some (JS.Int 5);
               NetworkUtils.pageToken := None;
               NetworkUtils.requestType := Some (NetworkUtils.Single (JS.lit "image")) |}) in
  0 < NetworkUtils.total listing ∧ NetworkUtils.requests listing ≠ [].
Proof.
  intros listing. assert (0 < NetworkUtils.total listing) as Hdata by (by vm_compute).
  split; [exact Hdata|].
  destruct (X12_page_length (fraction:=Empty_set) mock_resourceType mixedRequests
              (Some (JS.Int 5)) None (Some (NetworkUtils.Single (JS.lit "image"))))
    as [Hnonempty _].
  exact (Hnonempty Hdata).
Defined.

(** X15, at 5 requests and the tokens ["-3"] and ["+3"]. *)
Lemma X15_signed_tokens_witness :
  let call token :=
    NetworkUtils.paginateNetworkRequests (fraction:=Empty_set) mock_resourceType
      fiveRequests
      (Some {| NetworkUtils.pageSize := Some (JS.Int 2);
               NetworkUtils.pageToken := Some token;
               NetworkUtils.requestType := None |}) in
  0 < 3 ∧
  NetworkUtils.invalidToken (call (JS.lit "-3")) = true ∧
  NetworkUtils.startIndex (call (JS.lit "+3")) = 3.
Proof.
  intros call. split; [lia|].
  destruct (X15_signed_tokens (fraction:=Empty_set) mock_resourceType fiveRequests
              (Some (JS.Int 2)) None 3) as [[_ Hminus] Hplus]; [lia|].
  split; [exact Hminus|]. apply Hplus. by vm_compute.
Defined.

(** X16, at 5 requests and 100 calls. *)
Lemma X16_paginate_size_zero_witness :
  fiveRequests ≠ [] ∧
  followNextPageToken (genericCall (fraction:=Empty_set) fiveRequests 0) 100 None = None.
Proof.
  assert (fiveRequests ≠ []) as Hne by done.
  split; [exact Hne|].
  apply (X16_paginate_size_zero_never_ends (fraction:=Empty_set) fiveRequests 100 Hne).
Defined.

(** X17, at 5 requests, page size 50 and the token ["3"]. *)
Lemma X17_clamping_witness :
  0 < 50 ∧
  Pagination.previousPageToken
    (Pagination.paginate (fraction:=Empty_set) fiveRequests
       (Some {| Pagination.pageSize := Some (JS.Int 50);
                Pagination.pageToken := Some (JS.lit "3") |}))
  = NetworkUtilsV0.previousPageToken
      (NetworkUtilsV0.paginateNetworkRequests (fraction:=Empty_set) fiveRequests
         (Some {| NetworkUtilsV0.pageSize := Some (JS.Int 50);
                  NetworkUtilsV0.pageToken := Some (JS.lit "3") |})).
Proof.
  split; [lia|].
  apply (X17_clamping_is_not_observable (fraction:=Empty_set) fiveRequests 50
           (Some (JS.lit "3"))).
  lia.
Defined.
